(** * gorest: the REST route binding, the mux and the client response check

    A shallow embedding of [rest/route.go], [rest/mux.go] and the
    [Response.GetBody] method of [rest/client.go], with the properties of the
    design document settled against it.

    Go values that the code inspects through package [reflect] are modelled
    by the inductive types of module [reflect] below; Go's [int] is modelled
    by [Z] (every [int] computed here is a length or that length minus one,
    so no wrap-around can occur); byte slices are [list byte]; a Go
    interface value of type [error] is an [option goerror] ([None] is the
    nil interface). Panics are explicit results. *)

From Stdlib Require Import ZArith Lia.
From Stdlib Require Import Strings.Byte Strings.Ascii.
From stdpp Require Import base option list strings pretty gmap.

Local Open Scope Z_scope.

#[local] Set Warnings "-register-all".

(** ** Package reflect: kinds, types and values *)

Module reflect.

(** The kinds of [reflect.Kind], in the order of the Go declaration. *)
Inductive Kind : Set :=
| Invalid | Bool
| Int | Int8 | Int16 | Int32 | Int64
| Uint | Uint8 | Uint16 | Uint32 | Uint64 | Uintptr
| Float32 | Float64 | Complex64 | Complex128
| Array | Chan | Func | Interface | Map | Ptr | Slice
| String | Struct | UnsafePointer.

Global Instance Kind_eq_dec : EqDecision Kind.
Proof. solve_decision. Defined.

(** A [reflect.Type]. A function type lists its parameter and result
    types; every other type is identified by its name and its kind. The
    predeclared interface type [error] is [TNamed "error" Interface].
    [TFunc] is a function type that is not variadic. [TVariadic] is a
    variadic one: [ins] are the types of the parameters before the variadic
    one, [slice] is the name of the slice type of the variadic parameter,
    which is the last parameter type, and [fits] tells whether that slice
    type is assignable to its own element type, which is the case only when
    the element type is an interface that the slice type implements, such
    as [interface{}]. *)
Inductive Type_ : Type :=
| TNamed (name : string) (k : Kind)
| TFunc (ins outs : list Type_)
| TVariadic (ins outs : list Type_) (slice : string) (fits : bool).

Definition Kind_of (t : Type_) : Kind :=
  match t with
  | TNamed _ k => k
  | TFunc _ _ | TVariadic _ _ _ _ => Func
  end.

Definition Ins (t : Type_) : list Type_ :=
  match t with
  | TFunc ins _ => ins
  | TVariadic ins _ slice _ => ins ++ [TNamed slice Slice]
  | TNamed _ _ => []
  end.

Definition Outs (t : Type_) : list Type_ :=
  match t with
  | TFunc _ outs | TVariadic _ outs _ _ => outs
  | TNamed _ _ => []
  end.

Definition NumIn (t : Type_) : Z := Z.of_nat (length (Ins t)).

Definition NumOut (t : Type_) : Z := Z.of_nat (length (Outs t)).

End reflect.

Abbreviation Kind := reflect.Kind.
Abbreviation Type_ := reflect.Type_.
Abbreviation TNamed := reflect.TNamed.
Abbreviation TFunc := reflect.TFunc.
Abbreviation TVariadic := reflect.TVariadic.

(** [reflect.TypeOf(( *error)(nil)).Elem()] *)
Definition errorType : Type_ := TNamed "error" reflect.Interface.

(** [out == errorType]: identity of the type descriptor. *)
Definition is_errorType (t : Type_) : bool :=
  match t with
  | TNamed name reflect.Interface => String.eqb name "error"
  | _ => false
  end.

(** [Type.Bits()] for the sized kinds; [int] and [uint] are 64 bits wide
    ([strconv.IntSize] on the 64-bit platforms). *)
Definition IntSize : Z := 64.

Definition Bits (k : Kind) : Z :=
  match k with
  | reflect.Int | reflect.Uint | reflect.Uintptr => IntSize
  | reflect.Int8 | reflect.Uint8 => 8
  | reflect.Int16 | reflect.Uint16 => 16
  | reflect.Int32 | reflect.Uint32 | reflect.Float32 => 32
  | reflect.Int64 | reflect.Uint64 | reflect.Float64 | reflect.Complex64 => 64
  | reflect.Complex128 => 128
  | _ => 0
  end.

(** ** The path template *)

(** Modelled from the spec: [rest/path.go] ([Path], [NewPath],
    [Path.NumArgs]) is not among the sources. The design document describes
    a Path as an ordered sequence of segments, each either a literal string
    or an argument marker, with a fixed argument count equal to the number
    of argument segments. *)
Inductive Segment : Set :=
| Literal (s : string)
| Argument (name : string).

Definition Path : Set := list Segment.

Definition is_argument (s : Segment) : bool :=
  match s with Argument _ => true | Literal _ => false end.

Definition NumArgs (p : Path) : Z :=
  Z.of_nat (length (filter (fun s => is_argument s = true) p)).

(** ** Errors *)

(** Modelled from the spec: [rest/error.go] is not among the sources; the
    kinds are the closed taxonomy of the design document, under the names
    the three source files use. *)
Inductive ErrorType : Set :=
| UnmarshalError | MarshalError | HandlerError | UnknownRoute
| UnsupportedContentType | UnexpectedStatusCode | EndpointError
| ReadBodyError | NewRequestError | SendRequestError.

Global Instance ErrorType_eq_dec : EqDecision ErrorType.
Proof. solve_decision. Defined.

(** The two sentinel causes of [strconv.NumError]. *)
Inductive numErr : Set := ErrSyntax | ErrRange.

(** An argument of a format string, kept symbolic. *)
Inductive fmtArg : Set :=
| FString (s : string)
| FInt (z : Z)
| FKind (k : Kind)
| FPath (p : Path)
| FRoute (method : string) (p : Path).

(** The dynamic values of interface type [error] that the code builds or
    inspects. [CodedError] is [*rest.CodedError] with its fields [Code] and
    [Sub] as [Mux.respondError] reads them; [nilCodedError] is the nil
    pointer of that type; [foreignError] stands for an error of any other
    dynamic type (from [encoding/json], an [io.Reader], or a handler). *)
Inductive goerror : Set :=
| errorString (s : string)
| fmtError (format : string) (args : list fmtArg)
| NumError (Func Num : string) (Err : numErr)
| CodedError (Code : Z) (Sub : option goerror)
| nilCodedError
| foreignError (msg : string).

(** An interface value of type [error]; [None] is [nil]. *)
Definition error : Set := option goerror.

(** Modelled from the spec: the structured error [rest.Error] of
    [rest/error.go], a kind tag and an underlying cause. The sources build
    it as [&Error{Type, Sub}] and read [restError.Type], [restError.Sub]. *)
Record Error : Set := mkError { Type' : ErrorType; Sub : error }.

(** Modelled from the spec: [rest.ErrorFmt(errType, format, args...)] of
    [rest/error.go], a structured error of the given kind whose cause is
    the formatted message. *)
Definition ErrorFmt (t : ErrorType) (format : string) (args : list fmtArg) : Error :=
  mkError t (Some (fmtError format args)).

(** ** Values seen through reflection *)

Inductive width : Set := W0 | W8 | W16 | W32 | W64.
Inductive fwidth : Set := F32 | F64.

(** A [reflect.Value]. Integers carry the width of their type ([W0] is
    [int] or [uint]); a floating point number is its IEEE-754 bit pattern;
    the reference kinds are [None] when nil; [VError] is a value whose
    static type is the interface [error]. *)
Inductive Value : Type :=
| VBool (b : bool)
| VInt (w : width) (i : Z)
| VUint (w : width) (u : Z)
| VUintptr (u : Z)
| VFloat (w : fwidth) (bits : Z)
| VComplex (w : fwidth) (re im : Z)
| VString (s : string)
| VArray (elems : list Value)
| VStruct (fields : list (string * Value))
| VChan (c : option Z)
| VFunc (f : option Z)
| VInterface (dyn : option Value)
| VError (e : error)
| VMap (m : option (list (Value * Value)))
| VPtr (p : option Value)
| VSlice (s : option (list Value))
| VUnsafePointer (p : option Z).

Definition int_kind (w : width) : Kind :=
  match w with
  | W0 => reflect.Int | W8 => reflect.Int8 | W16 => reflect.Int16
  | W32 => reflect.Int32 | W64 => reflect.Int64
  end.

Definition uint_kind (w : width) : Kind :=
  match w with
  | W0 => reflect.Uint | W8 => reflect.Uint8 | W16 => reflect.Uint16
  | W32 => reflect.Uint32 | W64 => reflect.Uint64
  end.

(** [Value.Kind()] *)
Definition Value_Kind (v : Value) : Kind :=
  match v with
  | VBool _ => reflect.Bool
  | VInt w _ => int_kind w
  | VUint w _ => uint_kind w
  | VUintptr _ => reflect.Uintptr
  | VFloat F32 _ => reflect.Float32
  | VFloat F64 _ => reflect.Float64
  | VComplex F32 _ _ => reflect.Complex64
  | VComplex F64 _ _ => reflect.Complex128
  | VString _ => reflect.String
  | VArray _ => reflect.Array
  | VStruct _ => reflect.Struct
  | VChan _ => reflect.Chan
  | VFunc _ => reflect.Func
  | VInterface _ | VError _ => reflect.Interface
  | VMap _ => reflect.Map
  | VPtr _ => reflect.Ptr
  | VSlice _ => reflect.Slice
  | VUnsafePointer _ => reflect.UnsafePointer
  end.

(** [Value.IsNil()]; it panics ([None]) on a value whose kind is none of
    chan, func, interface, map, pointer, slice or unsafe pointer. *)
Definition Value_IsNil (v : Value) : option bool :=
  match v with
  | VChan c => Some (bool_decide (c = None))
  | VFunc f => Some (bool_decide (f = None))
  | VInterface None | VError None | VMap None | VPtr None | VSlice None => Some true
  | VInterface (Some _) | VError (Some _) | VMap (Some _) | VPtr (Some _)
  | VSlice (Some _) => Some false
  | VUnsafePointer p => Some (bool_decide (p = None))
  | _ => None
  end.

(** [Value.Len()] of a string, array, map, slice or channel; it panics
    ([None]) on the other kinds. The length of a channel's buffer is not
    tracked. *)
Definition Value_Len (v : Value) : option Z :=
  match v with
  | VString s => Some (Z.of_nat (String.length s))
  | VArray l => Some (Z.of_nat (length l))
  | VMap m => Some (Z.of_nat (length (default [] m)))
  | VSlice s => Some (Z.of_nat (length (default [] s)))
  | VChan _ => Some 0
  | _ => None
  end.

(** [reflect.New(t).Elem()]: the zero value of a type. The element and
    field types of composite types are not part of [Type_], so the zero
    array and struct are the ones without components. *)
Definition Zero (t : Type_) : Value :=
  match t with
  | TFunc _ _ | TVariadic _ _ _ _ => VFunc None
  | TNamed name k =>
    match k with
    | reflect.Invalid => VInterface None
    | reflect.Bool => VBool false
    | reflect.Int => VInt W0 0 | reflect.Int8 => VInt W8 0
    | reflect.Int16 => VInt W16 0 | reflect.Int32 => VInt W32 0
    | reflect.Int64 => VInt W64 0
    | reflect.Uint => VUint W0 0 | reflect.Uint8 => VUint W8 0
    | reflect.Uint16 => VUint W16 0 | reflect.Uint32 => VUint W32 0
    | reflect.Uint64 => VUint W64 0
    | reflect.Uintptr => VUintptr 0
    | reflect.Float32 => VFloat F32 0 | reflect.Float64 => VFloat F64 0
    | reflect.Complex64 => VComplex F32 0 0
    | reflect.Complex128 => VComplex F64 0 0
    | reflect.Array => VArray []
    | reflect.Chan => VChan None
    | reflect.Func => VFunc None
    | reflect.Interface =>
        if String.eqb name "error" then VError None else VInterface None
    | reflect.Map => VMap None
    | reflect.Ptr => VPtr None
    | reflect.Slice => VSlice None
    | reflect.String => VString EmptyString
    | reflect.Struct => VStruct []
    | reflect.UnsafePointer => VUnsafePointer None
    end
  end.

Definition SetString (v : Value) (x : string) : Value :=
  match v with VString _ => VString x | _ => v end.
Definition SetBool (v : Value) (x : bool) : Value :=
  match v with VBool _ => VBool x | _ => v end.
Definition SetInt (v : Value) (x : Z) : Value :=
  match v with VInt w _ => VInt w x | _ => v end.
Definition SetUint (v : Value) (x : Z) : Value :=
  match v with VUint w _ => VUint w x | VUintptr _ => VUintptr x | _ => v end.
Definition SetFloat (v : Value) (x : Z) : Value :=
  match v with VFloat w _ => VFloat w x | _ => v end.

(** ** Package strconv

    The Go library functions that [Route.parseArg] calls, in base 10, after
    their Go definitions. Each returns its value and an [error], as in Go. *)

Module strconv.

Definition syntaxError (fn str : string) : error := Some (NumError fn str ErrSyntax).
Definition rangeError (fn str : string) : error := Some (NumError fn str ErrRange).

Definition ParseBool (str : string) : bool * error :=
  if bool_decide (str ∈ ["1"; "t"; "T"; "TRUE"; "true"; "True"]) then (true, None)
  else if bool_decide (str ∈ ["0"; "f"; "F"; "FALSE"; "false"; "False"]) then (false, None)
  else (false, syntaxError "ParseBool" str).

(** The value of a decimal digit; every other byte is a syntax error in
    base 10 (a letter is a digit of a larger base, an underscore is only
    accepted in base 0). *)
Definition digit (c : ascii) : option Z :=
  let n := Z.of_N (Ascii.N_of_ascii c) in
  if (48 <=? n) && (n <=? 57) then Some (n - 48) else None.

Definition maxUint64 : Z := 2 ^ 64 - 1.

(** The loop of [ParseUint] over the bytes of the string; [n] is the
    [uint64] accumulator, so the sum [n + d] wraps modulo [2 ^ 64]. *)
Fixpoint ParseUint_loop (s0 s : string) (cutoff maxVal n : Z) : Z * error :=
  match s with
  | EmptyString => (n, None)
  | String c s' =>
    match digit c with
    | None => (0, syntaxError "ParseUint" s0)
    | Some d =>
      if n >=? cutoff then (maxVal, rangeError "ParseUint" s0)
      else
        let n := n * 10 in
        let n1 := (n + d) mod 2 ^ 64 in
        if (n1 <? n) || (n1 >? maxVal) then (maxVal, rangeError "ParseUint" s0)
        else ParseUint_loop s0 s' cutoff maxVal n1
    end
  end.

(** [ParseUint(s, 10, bitSize)] for [0 < bitSize <= 64]. *)
Definition ParseUint (s : string) (bitSize : Z) : Z * error :=
  if String.eqb s EmptyString then (0, syntaxError "ParseUint" s)
  else
    let cutoff := maxUint64 / 10 + 1 in
    let maxVal := 2 ^ bitSize - 1 in
    ParseUint_loop s s cutoff maxVal 0.

(** [ParseInt(s, 10, bitSize)] for [0 < bitSize <= 64]. *)
Definition ParseInt (s : string) (bitSize : Z) : Z * error :=
  match s with
  | EmptyString => (0, syntaxError "ParseInt" s)
  | String c rest =>
    let s0 := s in
    let '(neg, s) :=
      if Ascii.eqb c "+"%char then (false, rest)
      else if Ascii.eqb c "-"%char then (true, rest)
      else (false, s) in
    match ParseUint s bitSize with
    | (_, Some (NumError _ _ ErrSyntax)) => (0, syntaxError "ParseInt" s0)
    | (un, _) =>
      let cutoff := 2 ^ (bitSize - 1) in
      if negb neg && (un >=? cutoff) then (cutoff - 1, rangeError "ParseInt" s0)
      else if neg && (un >? cutoff) then (- cutoff, rangeError "ParseInt" s0)
      else (if neg then - un else un, None)
    end
  end.

End strconv.

(** ** The handler and the route *)

(** A Go value stored in an [interface{}]: its dynamic type and, when the
    type is a function type, what calling the function returns; [nilFunc]
    is the nil function of a function type. *)
Inductive Dyn : Type :=
| mkDyn (dynType : Type_) (Call : list Value -> list Value)
| nilFunc (dynType : Type_).

Definition dynType (h : Dyn) : Type_ :=
  match h with mkDyn t _ | nilFunc t => t end.

(** What the function returns for the arguments it receives. *)
Definition Call (h : Dyn) : list Value -> list Value :=
  match h with mkDyn _ f => f | nilFunc _ => fun _ => [] end.

Record Route : Type := mkRoute {
  Path_ : Path;
  Method : string;
  Handler : option Dyn;        (* nil when [None] *)
  initialize : bool;           (* the [sync.Once]: true once [init] has run *)
  handler : option Dyn;        (* the zero [reflect.Value] when [None] *)
  handlerType : option Type_;  (* nil when [None] *)
  inBody : Z;
  outBody : Z;
  outError : Z
}.

(** A panic: [log.Panicf] with its format and arguments, or a run-time
    panic of the Go library or of the language. *)
Inductive Panic : Type :=
| Panicf (format : string) (args : list fmtArg)
| RuntimePanic (what : string).

(** ** What the embedding takes from outside the three files

    [strconv.ParseFloat] and package [encoding/json] of the Go library, and
    the path parser and the router of [rest/path.go] and [rest/router.go],
    which are not among the sources. *)
Class Env : Type := {
  (** [strconv.ParseFloat(s, bitSize)]: the bit pattern and the error *)
  ParseFloat : string -> Z -> Z * error;
  (** [json.NewDecoder(bytes.NewReader(body)).Decode(ptr)], where [ptr]
      points to a cell holding the given value: the error and the new
      content of the cell *)
  json_Decode : list byte -> Value -> error * Value;
  (** [json.Marshal(v)] *)
  json_Marshal : Value -> list byte * error;
  (** [json.Unmarshal(data, obj)], [obj] being the caller's
      [interface{}] ([None] when nil) *)
  json_Unmarshal : list byte -> option Value -> error;
  (** [NewPath(path)] *)
  NewPath : string -> Path;
  (** the type [router] and its method [Route(method, path)], which returns
      a nil route ([None]) when nothing matches *)
  router : Type;
  router_Route : router -> string -> string -> option (Route * list string)
}.

(** [json.NewEncoder(w).Encode(v)] into a [bytes.Buffer]: the encoding of
    [json.Marshal] followed by a newline, or the error and nothing
    written. *)
Definition json_Encode `{Env} (v : Value) : list byte * error :=
  match json_Marshal v with
  | (b, None) => (b ++ [x0a], None)
  | (_, Some e) => ([], Some e)
  end.

(** ** rest/route.go *)

(** [route.String()], as an argument of a format. *)
Definition Route_String (route : Route) : fmtArg :=
  FRoute (Method route) (Path_ route).

(** The loop of [Route.init] over the results of the handler, from index
    [i] on. *)
Fixpoint init_outs (route : Route) (outs : list Type_) (i outBody outError : Z)
  : Panic + Z * Z :=
  match outs with
  | [] => inr (outBody, outError)
  | out :: outs' =>
    if is_errorType out then
      if outError >=? 0
      then inl (Panicf "too many error return for route %s" [Route_String route])
      else init_outs route outs' (i + 1) outBody i
    else
      if outBody >=? 0
      then inl (Panicf "too many normal return for route %s" [Route_String route])
      else init_outs route outs' (i + 1) i outError
  end.

(** [Route.init]: the initialised route, or the panic. *)
Definition init (route : Route) : Panic + Route :=
  match Handler route with
  | None => inl (RuntimePanic "reflect: call of reflect.Value.Type on zero Value")
  | Some h =>
    let handlerType := dynType h in
    if negb (bool_decide (reflect.Kind_of handlerType = reflect.Func)) then
      inl (Panicf "invalid handler type for route { %s %s }: got '%s' expected '%s'"
             [FString (Method route); FPath (Path_ route);
              FKind (reflect.Kind_of handlerType); FKind reflect.Func])
    else
      let pathArgs := NumArgs (Path_ route) in
      let handlerArgs := reflect.NumIn handlerType in
      if pathArgs <? handlerArgs - 1 then
        inl (Panicf "not enough path arguments for route { %s %s }: %d < %d"
               [FString (Method route); FPath (Path_ route);
                FInt pathArgs; FInt (handlerArgs - 1)])
      else if pathArgs >? handlerArgs then
        inl (Panicf "too many path arguments for route { %s %s }: %d > %d"
               [FString (Method route); FPath (Path_ route);
                FInt pathArgs; FInt handlerArgs])
      else
        let inBody' := if pathArgs <? handlerArgs then handlerArgs else inBody route in
        if reflect.NumOut handlerType >? 2 then
          inl (Panicf "too many return arguments for route %s" [Route_String route])
        else
          match init_outs route (reflect.Outs handlerType) 0 (-1) (-1) with
          | inl p => inl p
          | inr (outBody', outError') =>
            inr (mkRoute (Path_ route) (Method route) (Handler route)
                   (initialize route) (Some h) (Some handlerType)
                   inBody' outBody' outError')
          end
  end.

(** [Route.Init]: [init] runs at the first call only. *)
Definition Init (route : Route) : Panic + Route :=
  if initialize route then inr route
  else init (mkRoute (Path_ route) (Method route) (Handler route) true
               (handler route) (handlerType route)
               (inBody route) (outBody route) (outError route)).

(** [NewRoute(path, method, handler)] *)
Definition NewRoute `{Env} (path method : string) (handler : option Dyn)
  : Panic + Route :=
  Init (mkRoute (NewPath path) method handler false None None 0 0 0).

(** [Route.parseArg(data, value)]: the error and the content of the cell
    [value] afterwards. *)
Definition parseArg `{Env} (route : Route) (data : string) (value : Value)
  : error * Value :=
  match Value_Kind value with
  | reflect.String => (None, SetString value data)
  | reflect.Bool =>
    match strconv.ParseBool data with
    | (b, None) => (None, SetBool value b)
    | (_, err) => (err, value)
    end
  | reflect.Int | reflect.Int8 | reflect.Int16 | reflect.Int32 | reflect.Int64 =>
    match strconv.ParseInt data (Bits (Value_Kind value)) with
    | (i, None) => (None, SetInt value i)
    | (_, err) => (err, value)
    end
  | reflect.Uint | reflect.Uint8 | reflect.Uint16 | reflect.Uint32 | reflect.Uint64 =>
    match strconv.ParseUint data (Bits (Value_Kind value)) with
    | (u, None) => (None, SetUint value u)
    | (_, err) => (err, value)
    end
  | reflect.Float32 | reflect.Float64 =>
    match ParseFloat data (Bits (Value_Kind value)) with
    | (f, None) => (None, SetFloat value f)
    | (_, err) => (err, value)
    end
  | k =>
    (Some (fmtError "unsupported argument type for route '%s %s': %s"
             [FString (Method route); FPath (Path_ route); FKind k]), value)
  end.

(** [Route.isNil(obj)]; [None] would be a panic of [Len] or [IsNil]. *)
Definition isNil (route : Route) (obj : Value) : option bool :=
  match Value_Kind obj with
  | reflect.String => (fun n => n =? 0) <$> Value_Len obj
  | reflect.Chan | reflect.Interface | reflect.Map | reflect.Ptr | reflect.Slice =>
    Value_IsNil obj
  | _ => Some false
  end.

(** What a call of [Route.invoke] did: the argument vectors the handler was
    called with, in order, and the pair returned, [None] if it panicked. *)
Record Invocation : Type := mkInvocation {
  calls : list (list Value);
  returned : option (list byte * option Error)
}.

(** The body of the first loop of [Route.invoke] for parameter [i] of type
    [t], up to the test of [err]: the error and the content of the new cell
    [arg.Elem()]. [args !! i] is defined exactly when [i < len(args)]. *)
Definition invoke_arg `{Env} (route : Route) (args : list string)
    (body : list byte) (i : nat) (t : Type_) : error * Value :=
  let arg := Zero t in
  match args !! i with
  | Some data => parseArg route data arg
  | None => json_Decode body arg
  end.

(** The first loop of [Route.invoke], from parameter [i] on: the arguments
    bound, or the error returned from inside the loop. *)
Fixpoint invoke_in `{Env} (route : Route) (ins : list Type_) (i : nat)
    (args : list string) (body : list byte) (in_ : list Value)
  : Error + list Value :=
  match ins with
  | [] => inr in_
  | t :: ins' =>
    match invoke_arg route args body i t with
    | (Some err, _) => inl (mkError UnmarshalError (Some err))
    | (None, elem) => invoke_in route ins' (S i) args body (in_ ++ [elem])
    end
  end.

(** [out[i].Interface().(error)]; the assertion panics ([None]) on a value
    that is not an [error]. *)
Definition as_error (v : Value) : option error :=
  match v with VError e => Some e | _ => None end.

(** [Route.invoke], after the handler returned [out]. *)
Definition invoke_out `{Env} (route : Route) (out : list Value)
  : option (list byte * option Error) :=
  let encode_body :=
    if outBody route >=? 0 then
      match out !! Z.to_nat (outBody route) with
      | None => None
      | Some v =>
        match isNil route v with
        | None => None
        | Some true => Some ([], None)
        | Some false =>
          match json_Encode v with
          | (_, Some e) => Some ([], Some (mkError MarshalError (Some e)))
          | (ret, None) => Some (ret, None)
          end
        end
      end
    else Some ([], None) in
  if outError route >=? 0 then
    match out !! Z.to_nat (outError route) with
    | None => None
    | Some v =>
      match Value_IsNil v with
      | None => None
      | Some false =>
        match as_error v with
        | None => None
        | Some err => Some ([], Some (mkError HandlerError err))
        end
      | Some true => encode_body
      end
    end
  else encode_body.

(** The arguments that the function receives from [handler.Call(in)] when
    [in] holds one value of each parameter type, as in [Route.invoke];
    [None] when [Call] panics before the function is entered. [t] is the
    type of the function, which [init] keeps in [handlerType]. [Call]
    panics on a nil function and on a value that is not a function. For a
    variadic function it takes the last value, which [invoke] made of the
    slice type, as the single variadic argument: it panics unless the slice
    type is assignable to the element type, and otherwise passes a new
    slice that holds that value. *)
Definition Call_args (t : Type_) (h : Dyn) (in_ : list Value)
  : option (list Value) :=
  match h with
  | nilFunc _ => None
  | mkDyn _ _ =>
    match t with
    | TNamed _ _ => None
    | TFunc _ _ => Some in_
    | TVariadic _ _ _ fits =>
      match reverse in_ with
      | x :: before =>
        if fits
        then Some (reverse before ++ [VSlice (Some [VInterface (Some x)])])
        else None
      | [] => None
      end
    end
  end.

(** [Route.invoke(args, body)]; the handler counts as called when
    [Value.Call] enters the function. *)
Definition invoke `{Env} (route : Route) (args : list string) (body : list byte)
  : Invocation :=
  match handlerType route, handler route with
  | Some ht, Some h =>
    match invoke_in route (reflect.Ins ht) 0 args body [] with
    | inl e => mkInvocation [] (Some ([], Some e))
    | inr in_ =>
      match Call_args ht h in_ with
      | None => mkInvocation [] None
      | Some received => mkInvocation [received] (invoke_out route (Call h received))
      end
    end
  | _, _ => mkInvocation [] None
  end.

(** ** Package strings and net/http, as far as the mux uses them *)

Module strings.

Definition HasPrefix (s prefix : string) : bool := String.prefix prefix s.

Fixpoint TrimLeft (s : string) (c : ascii) : string :=
  match s with
  | EmptyString => EmptyString
  | String a s' => if Ascii.eqb a c then TrimLeft s' c else s
  end.

(** [strings.Trim(s, cutset)] for a cutset of one character. *)
Definition Trim (s : string) (c : ascii) : string :=
  String.rev (TrimLeft (String.rev (TrimLeft s c)) c).

(** The slice expression [s[n:]], for [n <= len(s)]. *)
Definition from (n : nat) (s : string) : string :=
  String.substring n (String.length s - n) s.

End strings.

Module http.

Definition StatusBadRequest : Z := 400.
Definition StatusNotFound : Z := 404.
Definition StatusNoContent : Z := 204.

(** [http.Header]; the keys are in canonical form, as is the key
    ["Content-Type"] that the code asks for. *)
Abbreviation Header := (gmap string (list string)).

(** [Header.Get(key)]: the first value of the key, or the empty string. *)
Definition Get (h : Header) (key : string) : string :=
  match h !! key with
  | Some (v :: _) => v
  | _ => EmptyString
  end.

(** [http.Request], as far as [Mux.ServeHTTP] reads it; [Body] is what
    [ioutil.ReadAll(httpReq.Body)] returns. *)
Record Request : Type := mkRequest {
  Method : string;
  URL_Path : string;
  Header_ : Header;
  Body : list byte * error
}.

(** What was done with the [http.ResponseWriter]. An [http.Handler] is
    known by its name only. *)
Inductive Written : Type :=
| ServedBy (handler : string)            (* [handler.ServeHTTP(writer, httpReq)] *)
| Error (err : goerror) (code : Z)       (* [http.Error(writer, err.Error(), code)] *)
| WriteHeader (code : Z)
| Write (header : list (string * string)) (resp : list byte).

Definition DefaultServeMux : string := "http.DefaultServeMux".

(** The check of [WriteHeader(code)], which panics on a code that is not a
    three-digit number. *)
Definition checkWriteHeaderCode (code : Z) : bool :=
  (100 <=? code) && (code <=? 999).

End http.

(** ** rest/mux.go *)

Record Mux `{Env} : Type := mkMux {
  Root : string;
  ErrorFunc : option (ErrorType -> error -> error);
  DefaultHandler : option string;
  mux_initialize : bool;
  mux_router : router
}.

Definition Mux_init `{Env} (mux : Mux) : Mux :=
  let Root' :=
    if Nat.eqb (String.length (Root mux)) 0 then "/"
    else "/" +:+ strings.Trim (Root mux) "/" in
  let DefaultHandler' :=
    match DefaultHandler mux with
    | None => Some http.DefaultServeMux
    | Some h => Some h
    end in
  mkMux _ Root' (ErrorFunc mux) DefaultHandler' (mux_initialize mux) (mux_router mux).

Definition Mux_Init `{Env} (mux : Mux) : Mux :=
  if mux_initialize mux then mux
  else Mux_init (mkMux _ (Root mux) (ErrorFunc mux) (DefaultHandler mux) true
                   (mux_router mux)).

(** [Mux.route(method, path)] *)
Definition Mux_route `{Env} (mux : Mux) (method path : string)
  : option Route * list string * error :=
  let unknown := (None, [], Some (fmtError "unknown path: '%s'" [FString path])) in
  if strings.HasPrefix path (Root mux) then
    let sub := strings.from (String.length (Root mux)) path in
    match router_Route (mux_router mux) method sub with
    | Some (route, args) => (Some route, args, None)
    | None => unknown
    end
  else unknown.

(** [Mux.respondError(writer, errType, code, err)]: what is written, or
    [None] for the panic of a nil dereference or of [http.Error], whose
    [WriteHeader] refuses the code. *)
Definition respondError `{Env} (mux : Mux) (errType : ErrorType) (code : Z)
    (err : error) : option http.Written :=
  let err := match ErrorFunc mux with
             | Some f => f errType err
             | None => err
             end in
  let coded := match err with
               | Some (CodedError c sub) => Some (c, sub)
               | Some nilCodedError => None
               | _ => Some (code, err)
               end in
  match coded with
  | None => None
  | Some (code, Some e) =>
    if http.checkWriteHeaderCode code then Some (http.Error e code) else None
  | Some (_, None) => None
  end.

(** What a call of [Mux.ServeHTTP] did: the mux afterwards, the kind and
    cause handed to [respondError] if it was called, the argument vectors
    the route's handler was called with, and what was written, [None] if
    the call panicked. *)
Record Served `{Env} : Type := mkServed {
  served_mux : Mux;
  raised : option (ErrorType * error);
  served_calls : list (list Value);
  written : option http.Written
}.

(** [Mux.ServeHTTP(writer, httpReq)] *)
Definition ServeHTTP `{Env} (mux : Mux) (httpReq : http.Request) : Served :=
  let mux := Mux_Init mux in
  match Mux_route mux (http.Method httpReq) (http.URL_Path httpReq) with
  | (_, _, Some _) =>
    mkServed _ mux None [] (http.ServedBy <$> DefaultHandler mux)
  | (None, _, None) => mkServed _ mux None [] None
  | (Some route, args, None) =>
    let contentType := http.Get (http.Header_ httpReq) "Content-Type" in
    if negb (String.eqb contentType "application/json") then
      let err := Some (fmtError
        "unsupported content type: got '%s' expected 'application/json'"
        [FString contentType]) in
      mkServed _ mux (Some (UnsupportedContentType, err)) []
        (respondError mux UnsupportedContentType http.StatusBadRequest err)
    else
      match http.Body httpReq with
      | (_, Some e) =>
        mkServed _ mux (Some (ReadBodyError, Some e)) []
          (respondError mux ReadBodyError http.StatusBadRequest (Some e))
      | (body, None) =>
        let inv := invoke route args body in
        match returned inv with
        | None => mkServed _ mux None (calls inv) None
        | Some (_, Some restError) =>
          mkServed _ mux (Some (Type' restError, Sub restError)) (calls inv)
            (respondError mux (Type' restError) http.StatusBadRequest (Sub restError))
        | Some (resp, None) =>
          mkServed _ mux None (calls inv)
            (Some (if Nat.eqb (length resp) 0
                   then http.WriteHeader http.StatusNoContent
                   else http.Write
                          [("Content-Type", "application/json");
                           ("Content-Length", pretty (Z.of_nat (length resp)))]
                          resp))
        end
      end
  end.

(** ** rest/client.go: Response.GetBody *)

Record Response : Type := mkResponse {
  Code : Z;
  Header : http.Header;
  Body : list byte;
  Error' : option Error
}.

(** The arms of the [if ... else if] chain of [Response.GetBody], in
    source order. *)
Inductive Arm : Set :=
| ArmError | ArmNotFound | ArmEndpoint | ArmStatusRange
| ArmNoContent | ArmContentType | ArmUnmarshal.

(** [Response.GetBody(obj)] together with the arm of the chain that ran.
    [err] is the named result, nil on entry; [obj] is the caller's
    [interface{}]. *)
Definition GetBody_arm `{Env} (resp : Response) (obj : option Value)
  : Arm * option Error :=
  let err : option Error := None in
  match Error' resp with
  | Some e => (ArmError, Some e)
  | None =>
    if Code resp =? http.StatusNotFound then
      (ArmNotFound,
       Some (mkError UnknownRoute (Some (errorString (String.string_of_list_byte (Body resp))))))
    else if Code resp >=? 400 then
      (ArmEndpoint,
       Some (mkError EndpointError (Some (errorString (String.string_of_list_byte (Body resp))))))
    else if (Code resp <? 200) && (Code resp >=? 300) then
      (ArmStatusRange,
       Some (ErrorFmt UnexpectedStatusCode "unexpected status code: %d" [FInt (Code resp)]))
    else if Code resp =? http.StatusNoContent then
      (ArmNoContent,
       match obj with
       | None => err
       | Some _ => Some (ErrorFmt UnexpectedStatusCode "unexpected status code: 204" [])
       end)
    else
      let contentType := http.Get (Header resp) "Content-Type" in
      if negb (String.eqb contentType "application/json") then
        (ArmContentType,
         Some (ErrorFmt UnsupportedContentType
                 "unsupported content-type: '%s' != 'application/json'"
                 [FString contentType]))
      else
        let jsonErr := json_Unmarshal (Body resp) obj in
        (ArmUnmarshal,
         match err with
         | Some _ => Some (mkError UnmarshalError jsonErr)
         | None => err
         end)
  end.

Definition GetBody `{Env} (resp : Response) (obj : option Value) : option Error :=
  snd (GetBody_arm resp obj).

(** ** rest/mux.go: adding routes *)

(** [router.Add(route)] of [rest/router.go], which is not among the
    sources: the router afterwards. *)
Class RouterAdd `{Env} : Type := {
  router_Add : router -> Route -> router
}.

(** A [Routable], known by the routes that [RESTRoutes()] returns. *)
Record Routable : Type := mkRoutable { RESTRoutes : list Route }.

(** [Mux.AddRoute(routes...)] *)
Definition Mux_AddRoute `{RouterAdd} (mux : Mux) (routes : list Route) : Mux :=
  let mux := Mux_Init mux in
  fold_left
    (fun mux route =>
       mkMux _ (Root mux) (ErrorFunc mux) (DefaultHandler mux) (mux_initialize mux)
         (router_Add (mux_router mux) route))
    routes mux.

(** [Mux.AddService(routables...)] *)
Definition Mux_AddService `{RouterAdd} (mux : Mux) (routables : list Routable) : Mux :=
  fold_left (fun mux routable => Mux_AddRoute mux (RESTRoutes routable))
    routables mux.

(** ** rest/client.go: building and sending a request *)

(** [strings.TrimRight(s, cutset)] for a cutset of one character. *)
Definition strings_TrimRight (s : string) (c : ascii) : string :=
  String.rev (strings.TrimLeft (String.rev s) c).

Module client.

(** An [*http.Request] as [Request.send] builds it: the arguments of
    [http.NewRequest] ([body] is [None] for the nil reader) and the header
    assigned afterwards. *)
Record HTTPRequest : Type := mkHTTPRequest {
  http_method : string;
  http_url : string;
  http_body : option (list byte);
  http_header : http.Header
}.

(** What the client takes from the Go library. An [*http.Client] is known
    by its name only. *)
Class Transport : Type := {
  (** [textproto.CanonicalMIMEHeaderKey(key)] *)
  CanonicalMIMEHeaderKey : string -> string;
  (** the error of [http.NewRequest(method, url, body)], nil when the
      request is built *)
  http_NewRequest : string -> string -> option (list byte) -> error;
  (** [client.Do(req)]: the error, or the status code and the header of
      the response with what [ioutil.ReadAll(httpResp.Body)] returns *)
  client_Do : string -> HTTPRequest ->
              goerror + (Z * http.Header * (list byte * error))
}.

Definition DefaultClient : string := "http.DefaultClient".

(** [Header.Add(key, value)] *)
Definition Header_Add `{Transport} (h : http.Header) (key value : string)
  : http.Header :=
  let key := CanonicalMIMEHeaderKey key in
  <[key := default [] (h !! key) ++ [value]]> h.

Record Client : Type := mkClient {
  Client_Client : option string;   (* the embedded [*http.Client] *)
  Client_Host : string;
  Client_Root : string
}.

(** The fields of [Request]; [Header] is nil when [None], [HTTP] is nil
    when [None], [err] is nil when [None]. *)
Record Request : Type := mkRequest {
  Client_ : option string;
  Host : string;
  Root : string;
  Path : string;
  Method : string;
  Header : option http.Header;
  Body : list byte;
  HTTP : option HTTPRequest;
  err : option Error
}.

(** [Client.NewRequest(method)]: the client afterwards and the request. *)
Definition Client_NewRequest (c : Client) (method : string) : Client * Request :=
  let c := match Client_Client c with
           | None => mkClient (Some DefaultClient) (Client_Host c) (Client_Root c)
           | Some _ => c
           end in
  (c, mkRequest (Client_Client c) (Client_Host c) (Client_Root c) EmptyString
        method None [] None None).

(** [NewRequest(host, method)] *)
Definition NewRequest (host method : string) : Request :=
  mkRequest (Some DefaultClient) host EmptyString EmptyString method None [] None None.

(** [Request.SetClient(client)] *)
Definition SetClient (req : Request) (c : option string) : Request :=
  mkRequest c (Host req) (Root req) (Path req) (Method req) (Header req)
    (Body req) (HTTP req) (err req).

(** [Request.AddHeader(key, value)] *)
Definition AddHeader `{Transport} (req : Request) (key value : string) : Request :=
  let h := match Header req with
           | None => ∅
           | Some h => h
           end in
  mkRequest (Client_ req) (Host req) (Root req) (Path req) (Method req)
    (Some (Header_Add h key value)) (Body req) (HTTP req) (err req).

(** [Request.SetBody(obj)] *)
Definition SetBody `{Env} `{Transport} (req : Request) (obj : Value) : Request :=
  let '(b, e) := json_Marshal obj in
  let req := mkRequest (Client_ req) (Host req) (Root req) (Path req) (Method req)
               (Header req) b (HTTP req) (err req) in
  match e with
  | None => AddHeader req "Content-Length" (pretty (Z.of_nat (length b)))
  | Some _ =>
    mkRequest (Client_ req) (Host req) (Root req) (Path req) (Method req)
      (Header req) (Body req) (HTTP req) (Some (mkError MarshalError e))
  end.

(** [Request.send(resp)]: the request and the response afterwards, [None]
    for the panic of a nil [Client]. *)
Definition send `{Transport} (req : Request) (resp : Response)
  : option (Request * Response) :=
  let '(mkResponse resp_Code resp_Header resp_Body resp_Error) := resp in
  let reader := if (0 <? Z.of_nat (length (Body req))) then Some (Body req) else None in
  let url := strings_TrimRight (Host req) "/" +:+ Path req in
  match http_NewRequest (Method req) url reader with
  | Some e =>
    Some (mkRequest (Client_ req) (Host req) (Root req) (Path req) (Method req)
            (Header req) (Body req) None (err req),
          mkResponse resp_Code resp_Header resp_Body
            (Some (mkError NewRequestError (Some e))))
  | None =>
    let req := AddHeader req "Content-Type" "application/json" in
    let hreq := mkHTTPRequest (Method req) url reader (default ∅ (Header req)) in
    let req := mkRequest (Client_ req) (Host req) (Root req) (Path req) (Method req)
                 (Header req) (Body req) (Some hreq) (err req) in
    match Client_ req with
    | None => None
    | Some c =>
      match client_Do c hreq with
      | inl e =>
        Some (req, mkResponse resp_Code resp_Header resp_Body
                     (Some (mkError SendRequestError (Some e))))
      | inr (code, header, (body, None)) =>
        Some (req, mkResponse code header body resp_Error)
      | inr (code, header, (body, Some e)) =>
        Some (req, mkResponse code header body
                     (Some (mkError ReadBodyError (Some e))))
      end
    end
  end.

(** [Request.Send()]; the latency is left out. *)
Definition Send `{Transport} (req : Request) : option (Request * Response) :=
  let req := if Nat.eqb (String.length (Path req)) 0
             then mkRequest (Client_ req) (Host req) (Root req) (Root req)
                    (Method req) (Header req) (Body req) (HTTP req) (err req)
             else req in
  let resp := mkResponse 0 ∅ [] (err req) in
  match Error' resp with
  | None => send req resp
  | Some _ => Some (req, resp)
  end.

End client.

(** ** The vocabulary of the properties *)

(** The result shape the design document asks of a handler: at most two
    results, at most one of them of type [error] and at most one plain. *)
Definition num_errors (outs : list Type_) : nat :=
  length (filter (fun t => is_errorType t = true) outs).
Definition num_plain (outs : list Type_) : nat :=
  length (filter (fun t => is_errorType t = false) outs).
Definition outs_ok (outs : list Type_) : Prop :=
  (length outs <= 2)%nat /\ (num_errors outs <= 1)%nat /\ (num_plain outs <= 1)%nat.

Definition seen (slot : Z) : nat := if slot >=? 0 then 1%nat else 0%nat.

(** Turns the boolean comparisons of the hypotheses into inequalities. *)
Ltac zbool :=
  repeat match goal with
  | H : context [(_ >=? _)] |- _ => rewrite Z.geb_leb in H
  | H : context [(_ >? _)] |- _ => rewrite Z.gtb_ltb in H
  | H : (_ <? _) = true |- _ => apply Z.ltb_lt in H
  | H : (_ <? _) = false |- _ => apply Z.ltb_ge in H
  | H : (_ <=? _) = true |- _ => apply Z.leb_le in H
  | H : (_ <=? _) = false |- _ => apply Z.leb_gt in H
  | H : (_ =? _) = true |- _ => apply Z.eqb_eq in H
  | H : (_ =? _) = false |- _ => apply Z.eqb_neq in H
  end.

(** The semantic empty values of the design document: the empty string and
    the nil pointer, slice, map, interface and channel. *)
Definition empty_value (v : Value) : bool :=
  match v with
  | VString EmptyString => true
  | VPtr None | VSlice None | VMap None | VInterface None | VError None
  | VChan None => true
  | _ => false
  end.

(** The kinds that [parseArg] derives from a path segment. *)
Definition parseable (k : Kind) : bool :=
  match k with
  | reflect.String | reflect.Bool
  | reflect.Int | reflect.Int8 | reflect.Int16 | reflect.Int32 | reflect.Int64
  | reflect.Uint | reflect.Uint8 | reflect.Uint16 | reflect.Uint32 | reflect.Uint64
  | reflect.Float32 | reflect.Float64 => true
  | _ => false
  end.

(** [route] with another handler. *)
Definition with_Handler (route : Route) (h : Dyn) : Route :=
  mkRoute (Path_ route) (Method route) (Some h) (initialize route)
    (handler route) (handlerType route) (inBody route) (outBody route)
    (outError route).

(** No registered route matches: the path lacks the root prefix, or the
    router finds nothing for the rest of the path. *)
Definition no_match `{Env} (mux : Mux) (method path : string) : Prop :=
  strings.HasPrefix path (Root mux) = false \/
  router_Route (mux_router mux) method
    (strings.from (String.length (Root mux)) path) = None.

(** ** A small environment for the examples

    A path parser that splits on the slash and takes a leading colon as the
    argument marker, a JSON codec that knows the literal [null], strings
    without escapes and integers, no parser of floating point numbers
    (every text is refused), and routers given as lookup functions. *)

Module Example.

Fixpoint split (sep : ascii) (cur : string) (s : string) : list string :=
  match s with
  | EmptyString => [String.rev cur]
  | String c s' =>
    if Ascii.eqb c sep then String.rev cur :: split sep EmptyString s'
    else split sep (String c cur) s'
  end.

Definition segment (s : string) : Segment :=
  match s with
  | String ":" name => Argument name
  | _ => Literal s
  end.

Definition parse_path (path : string) : Path :=
  segment <$> filter (fun s => s <> EmptyString) (split "/" EmptyString path).

Definition bytes (s : string) : list byte := String.list_byte_of_string s.

#[export] Instance byte_eq_dec : EqDecision byte := Byte.byte_eq_dec.

Definition quote : string := String "034"%char EmptyString.

Definition Marshal (v : Value) : list byte * error :=
  match v with
  | VString s => (bytes (quote +:+ s +:+ quote), None)
  | VInt _ i => (bytes (pretty i), None)
  | VPtr None => (bytes "null", None)
  | _ => ([], Some (foreignError "json: unsupported type"))
  end.

Definition Decode (data : list byte) (v : Value) : error * Value :=
  if bool_decide (data = bytes "null") then (None, v)
  else if bool_decide (data = []) then (Some (foreignError "EOF"), v)
  else (Some (foreignError "json: cannot unmarshal"), v).

Definition Unmarshal (data : list byte) (obj : option Value) : error :=
  match obj with
  | None => Some (foreignError "json: Unmarshal(nil)")
  | Some v => fst (Decode data v)
  end.

#[export] Instance env : Env := {|
  ParseFloat := fun s _ => (0, Some (NumError "ParseFloat" s ErrSyntax));
  json_Decode := Decode;
  json_Marshal := Marshal;
  json_Unmarshal := Unmarshal;
  NewPath := parse_path;
  router := string -> string -> option (Route * list string);
  router_Route := fun r => r
|}.

(** Some Go types. *)
Definition int : Type_ := TNamed "int" reflect.Int.
Definition string_ : Type_ := TNamed "string" reflect.String.
Definition Item : Type_ := TNamed "Item" reflect.Struct.

Definition route_of (path : Path) (method : string) (h : Dyn) : Route :=
  mkRoute path method (Some h) false None None 0 0 0.

(** The route after [Init], when [Init] does not panic. *)
Definition initialised (route : Route) : Route :=
  match Init route with inr r => r | inl _ => route end.

(** [GET /ping -> func() (int, int, int)] *)
Definition ping3_handler : Dyn :=
  mkDyn (TFunc [] [int; int; int]) (fun _ => [VInt W0 1; VInt W0 2; VInt W0 3]).
Definition ping3 : Route := route_of [Literal "ping"] "GET" ping3_handler.

(** [GET /sum -> func(a, b int) int] on a path without arguments *)
Definition sum_handler : Dyn :=
  mkDyn (TFunc [int; int] [int])
    (fun in_ => match in_ with
                | [VInt _ a; VInt _ b] => [VInt W0 (a + b)]
                | _ => [VInt W0 0]
                end).
Definition sum : Route := route_of [Literal "sum"] "GET" sum_handler.

(** [GET /square/:n -> func(n int) int] *)
Definition square_handler : Dyn :=
  mkDyn (TFunc [int] [int])
    (fun in_ => match in_ with
                | [VInt _ n] => [VInt W0 (n * n)]
                | _ => [VInt W0 0]
                end).
Definition square : Route :=
  route_of [Literal "square"; Argument "n"] "GET" square_handler.

(** [GET /hello/:name -> func(name string) string] *)
Definition hello_handler : Dyn :=
  mkDyn (TFunc [string_] [string_])
    (fun in_ => match in_ with
                | [VString name] => [VString ("hello " +:+ name)]
                | _ => [VString EmptyString]
                end).
Definition hello : Route :=
  route_of [Literal "hello"; Argument "name"] "GET" hello_handler.

(** [GET /fail -> func() (string, error)], which returns both a text and
    an error *)
Definition fail_handler : Dyn :=
  mkDyn (TFunc [] [string_; errorType])
    (fun _ => [VString "partial"; VError (Some (errorString "boom"))]).
Definition fail : Route := route_of [Literal "fail"] "GET" fail_handler.

(** [GET /items/:id -> func(id Item) error], with a struct parameter *)
Definition item_handler : Dyn :=
  mkDyn (TFunc [Item] [errorType]) (fun _ => [VError None]).
Definition item : Route :=
  route_of [Literal "items"; Argument "id"] "GET" item_handler.

(** [GET /gone -> func() error], which returns a [*CodedError] *)
Definition gone_handler : Dyn :=
  mkDyn (TFunc [] [errorType])
    (fun _ => [VError (Some (CodedError 404 (Some (errorString "gone"))))]).
Definition gone : Route := route_of [Literal "gone"] "GET" gone_handler.

(** A router that knows [GET hello/bob] and [GET gone]. *)
Definition lookup (method path : string) : option (Route * list string) :=
  if String.eqb method "GET" && String.eqb path "hello/bob"
  then Some (initialised hello, ["bob"])
  else if String.eqb method "GET" && String.eqb path "gone"
  then Some (initialised gone, [])
  else None.

Definition mux : Mux := mkMux env EmptyString None None false lookup.

Definition json_header : http.Header := {[ "Content-Type" := ["application/json"] ]}.

(** [GET /hello/bob] without header and without body *)
Definition bare_request : http.Request :=
  http.mkRequest "GET" "/hello/bob" ∅ ([], None).

(** [GET /nothing] and [GET /gone], both with the JSON content type *)
Definition nothing_request : http.Request :=
  http.mkRequest "GET" "/nothing" json_header ([], None).

(** A response with status 200 and the JSON content type whose body is
    not JSON, one with status 204, and the caller's object. *)
Definition broken_response : Response :=
  mkResponse 200 json_header (bytes "oops") None.
Definition empty_response : Response := mkResponse 204 ∅ [] None.
Definition obj : option Value := Some (VInt W0 0).

End Example.

(** ** More vocabulary *)

(** The results of a call conform to the result types of the handler, as
    far as [invoke] depends on it: there is one value for each result type,
    and the value at a result of type [error] is an [error]. *)
Definition conforms (outs : list Type_) (out : list Value) : Prop :=
  Forall2 (fun t v => is_errorType t = true -> exists e, v = VError e) outs out.

(** The range of the signed and of the unsigned integers of a width. *)
Definition int_range (bits i : Z) : Prop := - 2 ^ (bits - 1) <= i < 2 ^ (bits - 1).
Definition uint_range (bits u : Z) : Prop := 0 <= u < 2 ^ bits.

(** The URL that [Request.send] asks for and the body reader it passes,
    for the request as [Request.Send] receives it: an empty path stands for
    the root, and an empty body for no reader. *)
Definition sent_url (req : client.Request) : string :=
  strings_TrimRight (client.Host req) "/" +:+
  (if Nat.eqb (String.length (client.Path req)) 0
   then client.Root req else client.Path req).
Definition sent_body (req : client.Request) : option (list byte) :=
  if 0 <? Z.of_nat (length (client.Body req)) then Some (client.Body req) else None.

(** The string consists of the character [c] only. *)
Fixpoint only (c : ascii) (s : string) : bool :=
  match s with
  | EmptyString => true
  | String a s' => Ascii.eqb a c && only c s'
  end.

(** The string neither starts nor ends with the character [c]. *)
Definition trimmed (c : ascii) (s : string) : Prop :=
  (forall s', s <> String c s') /\ (forall s', s <> s' +:+ String c EmptyString).

(** ** More examples

    A route with a body parameter, a router that records the routes whose
    path has no argument, and a transport that knows one host. *)

Module Sample.

(** [POST /notes/:id -> func(id int, note *Note) ( *Note, error)] *)
Definition Note : Type_ := TNamed "*Note" reflect.Ptr.
Definition note_handler : Dyn :=
  mkDyn (TFunc [Example.int; Note] [Note; errorType])
    (fun in_ => match in_ with
                | [_; note] => [note; VError None]
                | _ => [VPtr None; VError None]
                end).
Definition note : Route :=
  Example.route_of [Literal "notes"; Argument "id"] "POST" note_handler.

(** The text of a path without arguments. *)
Fixpoint literal_path (p : Path) : option string :=
  match p with
  | [] => Some EmptyString
  | [Literal s] => Some s
  | Literal s :: p' => (fun rest => s +:+ "/" +:+ rest) <$> literal_path p'
  | Argument _ :: _ => None
  end.

Definition add (r : string -> string -> option (Route * list string))
    (route : Route) : string -> string -> option (Route * list string) :=
  fun method path =>
    if String.eqb method (Method route) &&
       bool_decide (literal_path (Path_ route) = Some path)
    then Some (route, [])
    else r method path.

#[export] Instance adder : RouterAdd (H := Example.env) :=
  Build_RouterAdd Example.env add.

Definition services : list Routable :=
  [mkRoutable [Example.initialised Example.fail];
   mkRoutable [Example.initialised Example.gone]].

(** [GET /hello/bob] with the JSON content type *)
Definition hello_request : http.Request :=
  http.mkRequest "GET" "/hello/bob" Example.json_header ([], None).

#[export] Instance transport : client.Transport := {|
  client.CanonicalMIMEHeaderKey := fun key => key;
  client.http_NewRequest := fun method url _ =>
    if String.eqb method "BAD METHOD"
    then Some (fmtError "net/http: invalid method %q" [FString method])
    else None;
  client.client_Do := fun _ hreq =>
    if String.eqb (client.http_url hreq) "http://host/notes"
    then inr (200, Example.json_header, (Example.bytes "null", None))
    else if String.eqb (client.http_url hreq) "http://host/missing"
    then inr (404, ∅, (Example.bytes "404 page not found", None))
    else inl (foreignError "dial tcp: lookup failed")
|}.

(** A request for [http://host/notes] and one whose body cannot be
    encoded. *)
Definition notes_request : client.Request :=
  client.mkRequest (Some client.DefaultClient) "http://host/" "/notes"
    EmptyString "GET" None [] None None.
Definition unencodable : Value := VChan None.

(** What [Send] makes of [notes_request]: the HTTP request, the request
    afterwards and the response. *)
Definition notes_http : client.HTTPRequest :=
  client.mkHTTPRequest "GET" "http://host/notes" None Example.json_header.
Definition notes_sent : client.Request :=
  client.mkRequest (Some client.DefaultClient) "http://host/" "/notes" "/notes"
    "GET" (Some Example.json_header) [] (Some notes_http) None.
Definition notes_response : Response :=
  mkResponse 200 Example.json_header (Example.bytes "null") None.

(** The request as the server receives it. *)
Definition notes_received : http.Request :=
  http.mkRequest "GET" "/notes" Example.json_header ([], None).

End Sample.

(** ** Route registration *)

Lemma num_cons t outs :
  num_errors (t :: outs) = ((if is_errorType t then 1 else 0) + num_errors outs)%nat /\
  num_plain (t :: outs) = ((if is_errorType t then 0 else 1) + num_plain outs)%nat.
Proof.
  unfold num_errors, num_plain. rewrite !filter_cons.
  destruct (is_errorType t); repeat case_decide; simpl; try done.
Qed.

Lemma num_split outs : (num_errors outs + num_plain outs = length outs)%nat.
Proof.
  induction outs as [|t outs IH]; [done|].
  destruct (num_cons t outs) as [-> ->]. simpl length.
  destruct (is_errorType t); lia.
Qed.

Lemma init_outs_ok route outs : forall i outBody outError, 0 <= i ->
  (exists r, init_outs route outs i outBody outError = inr r) <->
  (num_errors outs + seen outError <= 1)%nat /\
  (num_plain outs + seen outBody <= 1)%nat.
Proof.
  induction outs as [|t outs IH]; intros i ob oe Hi.
  - simpl. unfold seen. split; [intros _|eauto].
    split; simpl; case_match; lia.
  - destruct (num_cons t outs) as [-> ->]. simpl.
    destruct (is_errorType t).
    + unfold seen at 1. destruct (oe >=? 0) eqn:Hoe.
      * split; [intros [r Hr]; discriminate | lia].
      * rewrite IH by lia. unfold seen at 1.
        assert ((i >=? 0) = true) as -> by lia. lia.
    + unfold seen at 2. destruct (ob >=? 0) eqn:Hob.
      * split; [intros [r Hr]; discriminate | lia].
      * rewrite IH by lia. unfold seen at 2.
        assert ((i >=? 0) = true) as -> by lia. lia.
Qed.

Lemma NumArgs_nonneg p : 0 <= NumArgs p.
Proof. unfold NumArgs. lia. Qed.

(** [init] succeeds exactly on a function handler whose parameter count is
    the path's argument count or one more and whose results are well
    shaped. *)
Lemma init_succeeds_iff route :
  (exists r, init route = inr r) <->
  exists h, Handler route = Some h /\
    reflect.Kind_of (dynType h) = reflect.Func /\
    (reflect.NumIn (dynType h) = NumArgs (Path_ route) \/
     reflect.NumIn (dynType h) = NumArgs (Path_ route) + 1) /\
    outs_ok (reflect.Outs (dynType h)).
Proof.
  unfold init, outs_ok.
  destruct (Handler route) as [h|]; [|split; [intros [? ?]; done|intros (?&?&?); done]].
  pose proof (init_outs_ok route (reflect.Outs (dynType h)) 0 (-1) (-1) (Z.le_refl 0)) as Houts.
  pose proof (num_split (reflect.Outs (dynType h))) as Hsplit.
  assert (HNumOut : reflect.NumOut (dynType h) = Z.of_nat (length (reflect.Outs (dynType h)))).
  { by destruct (dynType h). }
  unfold seen in Houts; simpl in Houts.
  case_bool_decide as Hk; simpl.
  - destruct (_ <? _ - 1) eqn:H1; [|destruct (_ >? _) eqn:H2; [|destruct (_ >? 2) eqn:H3]].
    + split; [intros [? ?]; done|]. intros (h'&[= <-]&_&Har&_). zbool. exfalso; lia.
    + split; [intros [? ?]; done|]. intros (h'&[= <-]&_&Har&_). zbool. exfalso; lia.
    + split; [intros [? ?]; done|]. intros (h'&[= <-]&_&_&Hlen&_). zbool. exfalso; lia.
    + zbool. split.
      * intros [r Hr].
        destruct (init_outs _ _ _ _ _) as [|[ob oe]] eqn:Hio; [done|].
        destruct (proj1 Houts) as [He Hp]; [eauto|].
        exists h. split; [done|]. split; [done|]. split; [lia|].
        split; [lia|]. split; lia.
      * intros (h'&[= <-]&_&_&_&He&Hp).
        destruct (proj2 Houts) as [[ob oe] ->]; [lia|]. eauto.
  - split; [intros [? ?]; done|]. intros (h'&[= <-]&?&_). done.
Qed.

Lemma NewRoute_init `{Env} path method handler :
  NewRoute path method handler =
  init (mkRoute (NewPath path) method handler true None None 0 0 0).
Proof. reflexivity. Qed.

(** C1, as the code has it: [Route.init] succeeds if and only if the
    handler is a function whose number of parameters is the path's argument
    count N or N+1 and whose results are well shaped (at most two, at most
    one of type [error], at most one plain); a function with more than N+1
    parameters panics with the "not enough path arguments" message and one
    with fewer than N with the "too many path arguments" message. *)
Theorem init_arity_and_results (route : Route) :
  ((exists r, init route = inr r) <->
   exists h, Handler route = Some h /\
     reflect.Kind_of (dynType h) = reflect.Func /\
     (reflect.NumIn (dynType h) = NumArgs (Path_ route) \/
      reflect.NumIn (dynType h) = NumArgs (Path_ route) + 1) /\
     outs_ok (reflect.Outs (dynType h))) /\
  (forall h, Handler route = Some h ->
     reflect.Kind_of (dynType h) = reflect.Func ->
     (reflect.NumIn (dynType h) > NumArgs (Path_ route) + 1 ->
      init route = inl (Panicf
        "not enough path arguments for route { %s %s }: %d < %d"
        [FString (Method route); FPath (Path_ route);
         FInt (NumArgs (Path_ route)); FInt (reflect.NumIn (dynType h) - 1)])) /\
     (reflect.NumIn (dynType h) < NumArgs (Path_ route) ->
      init route = inl (Panicf
        "too many path arguments for route { %s %s }: %d > %d"
        [FString (Method route); FPath (Path_ route);
         FInt (NumArgs (Path_ route)); FInt (reflect.NumIn (dynType h))]))).
Proof.
  split; [apply init_succeeds_iff|].
  intros h Hh Hk. unfold init. rewrite Hh, Hk. simpl. split; intros Hn.
  - destruct (_ <? _ - 1) eqn:H1; [done|]. zbool. lia.
  - destruct (_ <? _ - 1) eqn:H1; [zbool; lia|].
    destruct (_ >? _) eqn:H2; [done|]. zbool. lia.
Qed.

(** ** Binding and invocation *)

(** [Call] keeps the number of the arguments and all of them but the last;
    the arguments of a function that is not variadic are passed as they
    are. *)
Lemma Call_args_spec t h bound received :
  Call_args t h bound = Some received ->
  length received = length bound /\
  (forall i, (S i < length bound)%nat -> received !! i = bound !! i) /\
  (forall ins outs, t = TFunc ins outs -> received = bound).
Proof.
  unfold Call_args. destruct h as [ht f|ht]; [|done].
  destruct t as [name k|ins outs|ins outs slice fits]; [done|by intros [= <-]|].
  destruct (reverse bound) as [|x before] eqn:Hrev; [done|].
  destruct fits; [|done]. intros [= <-].
  apply (f_equal reverse) in Hrev. rewrite reverse_involutive, reverse_cons in Hrev.
  subst bound. rewrite !length_app. simpl. split; [done|]. split; [|done].
  intros i Hi. rewrite !lookup_app_l by lia. done.
Qed.


Section Invoke.
Context `{Env}.
Variables (route : Route) (args : list string) (body : list byte).

(** When the loop ends normally, every parameter was bound without
    error, in order. *)
Lemma invoke_in_ok ins : forall i acc in_,
  invoke_in route ins i args body acc = inr in_ ->
  exists vs, in_ = acc ++ vs /\ length vs = length ins /\
    forall k t, ins !! k = Some t ->
      exists v, invoke_arg route args body (i + k) t = (None, v) /\
                vs !! k = Some v.
Proof.
  induction ins as [|t ins IH]; intros i acc in_ Hin; simpl in Hin.
  - exists []. simplify_eq. rewrite app_nil_r. done.
  - destruct (invoke_arg route args body i t) as [[e|] v] eqn:Harg; [done|].
    apply IH in Hin as (vs & -> & Hlen & Hvs).
    exists (v :: vs). rewrite <- app_assoc. split; [done|].
    split; [simpl; lia|].
    intros [|k] t' Hk; simpl in Hk.
    + simplify_eq. rewrite Nat.add_0_r. eauto.
    + replace (i + S k)%nat with (S i + k)%nat by lia. eauto.
Qed.

(** The loop returns at the first parameter that fails to bind. *)
Lemma invoke_in_fail ins : forall i acc k t e v,
  ins !! k = Some t ->
  invoke_arg route args body (i + k) t = (Some e, v) ->
  (forall j tj, (j < k)%nat -> ins !! j = Some tj ->
     exists vj, invoke_arg route args body (i + j) tj = (None, vj)) ->
  invoke_in route ins i args body acc = inl (mkError UnmarshalError (Some e)).
Proof.
  induction ins as [|t0 ins IH]; intros i acc k t e v Hk He Hbefore; [done|].
  destruct k as [|k]; simpl in *.
  - simplify_eq. rewrite Nat.add_0_r in He. by rewrite He.
  - destruct (Hbefore 0%nat t0) as [v0 Hv0]; [lia|done|].
    rewrite Nat.add_0_r in Hv0. rewrite Hv0.
    apply (IH (S i) _ k t e v); [done|by replace (S i + k)%nat with (i + S k)%nat by lia|].
    intros j tj Hj Htj.
    replace (S i + j)%nat with (i + S j)%nat by lia.
    apply Hbefore; [lia|done].
Qed.

(** The handler is called exactly when the loop ends normally and [Call]
    accepts the arguments, and then once. *)
Lemma invoke_called in_ :
  calls (invoke route args body) = [in_] ->
  exists ht h, handlerType route = Some ht /\ handler route = Some h /\
    (exists bound, invoke_in route (reflect.Ins ht) 0 args body [] = inr bound /\
       Call_args ht h bound = Some in_) /\
    returned (invoke route args body) = invoke_out route (Call h in_).
Proof.
  unfold invoke.
  destruct (handlerType route) as [ht|]; [|done].
  destruct (handler route) as [h|]; [|done].
  destruct (invoke_in _ _ _ _ _ _) as [e|bound] eqn:Hin; [done|].
  destruct (Call_args ht h bound) as [received|] eqn:Hcall; [|done].
  simpl. intros [= ->]. exists ht, h. split_and!; eauto.
Qed.

Lemma invoke_not_called e ht h :
  handlerType route = Some ht -> handler route = Some h ->
  invoke_in route (reflect.Ins ht) 0 args body [] = inl e ->
  invoke route args body = mkInvocation [] (Some ([], Some e)).
Proof. unfold invoke. by intros -> -> ->. Qed.

(** When every parameter binds, the handler is called, with what [Call]
    makes of the values bound. *)
Lemma invoke_bound ht h bound received :
  handlerType route = Some ht -> handler route = Some h ->
  invoke_in route (reflect.Ins ht) 0 args body [] = inr bound ->
  Call_args ht h bound = Some received ->
  invoke route args body =
    mkInvocation [received] (invoke_out route (Call h received)).
Proof. unfold invoke. by intros -> -> -> ->. Qed.

(** The kinds of error that [invoke] returns. *)
Lemma invoke_error_kinds resp e :
  returned (invoke route args body) = Some (resp, Some e) ->
  Type' e = UnmarshalError \/ Type' e = HandlerError \/ Type' e = MarshalError.
Proof.
  unfold invoke.
  destruct (handlerType route) as [ht|]; [|done].
  destruct (handler route) as [h|]; [|done].
  destruct (invoke_in _ _ _ _ _ _) as [e'|in_] eqn:Hin; simpl.
  - intros [= <- <-]. left. clear -Hin.
    revert Hin. generalize (@nil Value) 0%nat.
    induction (reflect.Ins ht) as [|t ins IH]; intros i acc; simpl; [done|].
    destruct (invoke_arg _ _ _ _ _) as [[?|] ?]; [by intros [= <-]|apply IH].
  - destruct (Call_args ht h in_) as [received|]; [|done]. simpl.
    unfold invoke_out. intros Hret.
    repeat (case_match; simplify_eq; simpl; auto).
Qed.

(** The loop ends normally when every parameter binds. *)
Lemma invoke_in_all ins : forall i acc vs,
  length vs = length ins ->
  (forall k t, ins !! k = Some t ->
     exists v, invoke_arg route args body (i + k) t = (None, v) /\ vs !! k = Some v) ->
  invoke_in route ins i args body acc = inr (acc ++ vs).
Proof.
  induction ins as [|t ins IH]; intros i acc vs Hlen Hall.
  - destruct vs; [|done]. by rewrite app_nil_r.
  - destruct vs as [|v vs]; [done|]. simpl.
    destruct (Hall 0%nat t eq_refl) as (v0 & Hv0 & [= <-]).
    rewrite Nat.add_0_r in Hv0. rewrite Hv0.
    rewrite (IH (S i) (acc ++ [v]) vs); [by rewrite <- app_assoc|simpl in Hlen; lia|].
    intros k t' Hk. replace (S i + k)%nat with (i + S k)%nat by lia.
    by apply (Hall (S k) t').
Qed.

End Invoke.

Lemma invocation_eta (inv : Invocation) :
  inv = mkInvocation (calls inv) (returned inv).
Proof. by destruct inv. Qed.

(** C2: when the handler has an error result slot and the call returns a
    non-nil error in it, [invoke] returns no body and an error of kind
    [HandlerError] whose cause is that error, whatever the other results
    of the call are. *)
Theorem handler_error_short_circuits `{Env} (route : Route)
    (args : list string) (body : list byte) (in_ : list Value) (h : Dyn)
    (e : goerror) :
  calls (invoke route args body) = [in_] ->
  handler route = Some h ->
  0 <= outError route ->
  Call h in_ !! Z.to_nat (outError route) = Some (VError (Some e)) ->
  invoke route args body =
    mkInvocation [in_] (Some ([], Some (mkError HandlerError (Some e)))).
Proof.
  intros Hcalls Hh Hslot Hout.
  destruct (invoke_called _ _ _ _ Hcalls) as (ht & h' & _ & Hh' & _ & Hret).
  rewrite Hh in Hh'. injection Hh' as <-.
  rewrite (invocation_eta (invoke route args body)), Hcalls, Hret.
  unfold invoke_out. rewrite Hout.
  assert ((outError route >=? 0) = true) as -> by lia. done.
Qed.

Lemma isNil_empty_value route v : isNil route v = Some (empty_value v).
Proof.
  destruct v as [| | | |[]|[]|[]| | |[]|[]|[]|[]|[]|[]|[]|[]]; try done;
    by destruct w.
Qed.

Lemma json_Encode_nonempty `{Env} v ret : json_Encode v = (ret, None) -> ret <> [].
Proof.
  unfold json_Encode. destruct (json_Marshal v) as [b [e|]]; [done|].
  intros [= <-]. by destruct b.
Qed.

(** The rest of [invoke] once the error slot, if any, holds nil. *)
Lemma invoke_out_no_error `{Env} route out :
  outError route < 0 \/ out !! Z.to_nat (outError route) = Some (VError None) ->
  invoke_out route out =
    if outBody route >=? 0 then
      match out !! Z.to_nat (outBody route) with
      | None => None
      | Some v =>
        if empty_value v then Some ([], None)
        else match json_Encode v with
             | (_, Some e) => Some ([], Some (mkError MarshalError (Some e)))
             | (ret, None) => Some (ret, None)
             end
      end
    else Some ([], None).
Proof.
  intros Herr. unfold invoke_out.
  assert (Hbody : forall v, match isNil route v with
                  | None => None
                  | Some true => Some ([], None)
                  | Some false =>
                    match json_Encode v with
                    | (_, Some e) => Some ([], Some (mkError MarshalError (Some e)))
                    | (ret, None) => Some (ret, None)
                    end
                  end =
                  if empty_value v then Some ([], None)
                  else match json_Encode v with
                       | (_, Some e) => Some ([], Some (mkError MarshalError (Some e)))
                       | (ret, None) => Some (ret, None)
                       end).
  { intros v. by rewrite isNil_empty_value. }
  destruct Herr as [Hneg|Hnil].
  - assert ((outError route >=? 0) = false) as -> by lia.
    destruct (outBody route >=? 0); [|done].
    destruct (out !! _) as [v|]; [apply Hbody|done].
  - rewrite Hnil. simpl.
    destruct (outError route >=? 0);
      (destruct (outBody route >=? 0); [|done]);
      (destruct (out !! Z.to_nat (outBody route)) as [v|]; [apply Hbody|done]).
Qed.

(** C4: after a call of the handler that reports no error, [invoke] returns
    the empty body and no error exactly when the handler has no body result
    slot or the body result is the semantic empty value of its type;
    otherwise it returns the JSON encoding of the body result, or no body
    and an error of kind [MarshalError] when the encoding fails. Values of
    the numeric, struct and array kinds (and of every kind but string,
    chan, interface, map, pointer and slice) are never empty. *)
Theorem response_body_of_result `{Env} (route : Route) (args : list string)
    (body : list byte) (in_ : list Value) (h : Dyn) :
  calls (invoke route args body) = [in_] ->
  handler route = Some h ->
  outError route < 0 \/
    Call h in_ !! Z.to_nat (outError route) = Some (VError None) ->
  (outBody route < 0 -> returned (invoke route args body) = Some ([], None)) /\
  (forall v, 0 <= outBody route ->
     Call h in_ !! Z.to_nat (outBody route) = Some v ->
     (returned (invoke route args body) = Some ([], None) <-> empty_value v = true) /\
     (empty_value v = false ->
      forall b, json_Marshal v = (b, None) ->
        returned (invoke route args body) = Some (b ++ [x0a], None)) /\
     (empty_value v = false ->
      forall b e, json_Marshal v = (b, Some e) ->
        returned (invoke route args body) =
          Some ([], Some (mkError MarshalError (Some e))))) /\
  (forall v, isNil route v = Some true <->
     v = VString EmptyString \/ v = VPtr None \/ v = VSlice None \/ v = VMap None \/
     v = VInterface None \/ v = VError None \/ v = VChan None) /\
  (forall v, Value_Kind v ∉ [reflect.String; reflect.Chan; reflect.Interface;
                              reflect.Map; reflect.Ptr; reflect.Slice] ->
     isNil route v = Some false).
Proof.
  intros Hcalls Hh Herr.
  destruct (invoke_called _ _ _ _ Hcalls) as (ht & h' & _ & Hh' & _ & Hret).
  rewrite Hh in Hh'. injection Hh' as <-.
  rewrite Hret, (invoke_out_no_error _ _ Herr).
  split_and!.
  - intros Hb. by assert ((outBody route >=? 0) = false) as -> by lia.
  - intros v Hb Hv. assert ((outBody route >=? 0) = true) as -> by lia.
    rewrite Hv. split_and!.
    + destruct (empty_value v); [done|]. split; [|done].
      destruct (json_Encode v) as [ret [e|]] eqn:Henc; [done|].
      intros [= ->]. by apply json_Encode_nonempty in Henc.
    + intros -> b Hm. unfold json_Encode. by rewrite Hm.
    + intros -> b e Hm. unfold json_Encode. by rewrite Hm.
  - intros v. rewrite isNil_empty_value.
    destruct v as [| | | | | |[]| | |[]| |[]|[]|[]|[]|[]|]; simpl;
      (split; [try done; auto 10 | intuition congruence]).
  - intros v Hk. rewrite isNil_empty_value. f_equal.
    destruct v as [| | | | | |[]| | |[]| |[]|[]|[]|[]|[]|]; simpl; try done;
      exfalso; apply Hk; simpl; repeat constructor.
Qed.

Lemma Zero_Kind t :
  reflect.Kind_of t <> reflect.Invalid -> Value_Kind (Zero t) = reflect.Kind_of t.
Proof.
  destruct t as [name k| |]; [|done..]. destruct k; simpl; try done.
  by destruct (String.eqb name "error").
Qed.

Lemma Zero_parseable t :
  parseable (reflect.Kind_of t) = false -> parseable (Value_Kind (Zero t)) = false.
Proof.
  destruct t as [name k| |]; [|done..]. destruct k; simpl; try done.
  by destruct (String.eqb name "error").
Qed.

Lemma Zero_int name w : Zero (TNamed name (int_kind w)) = VInt w 0.
Proof. by destruct w. Qed.

Lemma Zero_uint name w : Zero (TNamed name (uint_kind w)) = VUint w 0.
Proof. by destruct w. Qed.

(** The strconv functions at the edges of the ranges. *)
Example ParseInt_int8_range :
  strconv.ParseInt "-128" 8 = (-128, None) /\
  strconv.ParseInt "128" 8 = (127, Some (NumError "ParseInt" "128" ErrRange)) /\
  strconv.ParseInt "+7" 8 = (7, None) /\
  strconv.ParseInt "-" 8 = (0, Some (NumError "ParseInt" "-" ErrSyntax)).
Proof. repeat split. Qed.

Example ParseUint_uint64_range :
  strconv.ParseUint "18446744073709551615" 64 = (18446744073709551615, None) /\
  snd (strconv.ParseUint "18446744073709551616" 64) =
    Some (NumError "ParseUint" "18446744073709551616" ErrRange) /\
  snd (strconv.ParseUint "-1" 64) = Some (NumError "ParseUint" "-1" ErrSyntax).
Proof. repeat split. Qed.

Section ParseArg.
Context `{Env}.
Variable route : Route.

Lemma parseArg_string data s : parseArg route data (VString s) = (None, VString data).
Proof. done. Qed.

Lemma parseArg_bool data b0 :
  parseArg route data (VBool b0) =
  match strconv.ParseBool data with
  | (b, None) => (None, VBool b)
  | (_, err) => (err, VBool b0)
  end.
Proof. done. Qed.

Lemma parseArg_int data w i0 :
  parseArg route data (VInt w i0) =
  match strconv.ParseInt data (Bits (int_kind w)) with
  | (i, None) => (None, VInt w i)
  | (_, err) => (err, VInt w i0)
  end.
Proof. by destruct w. Qed.

Lemma parseArg_uint data w u0 :
  parseArg route data (VUint w u0) =
  match strconv.ParseUint data (Bits (uint_kind w)) with
  | (u, None) => (None, VUint w u)
  | (_, err) => (err, VUint w u0)
  end.
Proof. by destruct w. Qed.

Lemma parseArg_float data w f0 :
  parseArg route data (VFloat w f0) =
  match ParseFloat data (match w with F32 => 32 | F64 => 64 end) with
  | (f, None) => (None, VFloat w f)
  | (_, err) => (err, VFloat w f0)
  end.
Proof. by destruct w. Qed.

Lemma parseArg_unsupported data v :
  parseable (Value_Kind v) = false ->
  parseArg route data v =
  (Some (fmtError "unsupported argument type for route '%s %s': %s"
           [FString (Method route); FPath (Path_ route); FKind (Value_Kind v)]), v).
Proof. unfold parseArg. by destruct (Value_Kind v). Qed.

Lemma ParseInt_42 w : strconv.ParseInt "42" (Bits (int_kind w)) = (42, None).
Proof. by destruct w. Qed.

Lemma ParseInt_abc w :
  strconv.ParseInt "abc" (Bits (int_kind w)) =
  (0, Some (NumError "ParseInt" "abc" ErrSyntax)).
Proof. by destruct w. Qed.

End ParseArg.

Lemma ParseUint_loop_range s0 s cutoff maxVal : forall n u,
  0 <= n <= maxVal ->
  strconv.ParseUint_loop s0 s cutoff maxVal n = (u, None) ->
  0 <= u <= maxVal.
Proof.
  induction s as [|c s IH]; intros n u Hn; simpl.
  - by intros [= <-].
  - destruct (strconv.digit c) as [d|]; [|done].
    destruct (n >=? cutoff); [done|].
    destruct ((_ <? _) || (_ >? _)) eqn:Hov; [done|].
    apply IH. apply orb_false_elim in Hov as [_ Hmax].
    pose proof (Z.mod_pos_bound (n * 10 + d) (2 ^ 64) ltac:(lia)). lia.
Qed.

Lemma ParseUint_range s bitSize u :
  0 <= bitSize ->
  strconv.ParseUint s bitSize = (u, None) -> uint_range bitSize u.
Proof.
  intros Hb. unfold strconv.ParseUint, uint_range.
  destruct (String.eqb s EmptyString); [done|].
  intros Hloop. apply ParseUint_loop_range in Hloop; [lia|].
  pose proof (Z.pow_pos_nonneg 2 bitSize ltac:(lia) Hb). lia.
Qed.

Lemma ParseUint_loop_result s0 s cutoff maxVal : forall n,
  0 <= n -> 0 <= maxVal ->
  0 <= fst (strconv.ParseUint_loop s0 s cutoff maxVal n) /\
  snd (strconv.ParseUint_loop s0 s cutoff maxVal n) ∈
    [None; strconv.syntaxError "ParseUint" s0; strconv.rangeError "ParseUint" s0].
Proof.
  induction s as [|c s IH]; intros n Hn Hmax; simpl.
  - split; [done|]. repeat constructor.
  - destruct (strconv.digit c) as [d|]; [|split; [done|repeat constructor]].
    destruct (n >=? cutoff); [split; [done|repeat constructor]|].
    destruct ((_ <? _) || (_ >? _)); [split; [done|repeat constructor]|].
    apply IH; [|done].
    pose proof (Z.mod_pos_bound (n * 10 + d) (2 ^ 64) ltac:(lia)). lia.
Qed.

Lemma ParseUint_result s bitSize :
  0 <= bitSize ->
  0 <= fst (strconv.ParseUint s bitSize) /\
  snd (strconv.ParseUint s bitSize) ∈
    [None; strconv.syntaxError "ParseUint" s; strconv.rangeError "ParseUint" s].
Proof.
  intros Hb. unfold strconv.ParseUint.
  destruct (String.eqb s EmptyString); [split; [done|repeat constructor]|].
  apply ParseUint_loop_result; [done|].
  pose proof (Z.pow_pos_nonneg 2 bitSize ltac:(lia) Hb). lia.
Qed.

Lemma ParseInt_range s bitSize i :
  0 < bitSize ->
  strconv.ParseInt s bitSize = (i, None) -> int_range bitSize i.
Proof.
  intros Hb. unfold strconv.ParseInt, int_range.
  destruct s as [|c rest]; [done|].
  pose proof (Z.pow_pos_nonneg 2 (bitSize - 1) ltac:(lia) ltac:(lia)) as Hpow.
  assert (Hcase : forall neg s',
    match strconv.ParseUint s' bitSize with
    | (_, Some (NumError _ _ ErrSyntax)) =>
        (0, strconv.syntaxError "ParseInt" (String c rest))
    | (un, _) =>
        if negb neg && (un >=? 2 ^ (bitSize - 1))
        then (2 ^ (bitSize - 1) - 1, strconv.rangeError "ParseInt" (String c rest))
        else if neg && (un >? 2 ^ (bitSize - 1))
        then (- 2 ^ (bitSize - 1), strconv.rangeError "ParseInt" (String c rest))
        else (if neg then - un else un, None)
    end = (i, None) ->
    - 2 ^ (bitSize - 1) <= i < 2 ^ (bitSize - 1)).
  { intros neg s'.
    destruct (ParseUint_result s' bitSize ltac:(lia)) as [Hun He].
    destruct (strconv.ParseUint s' bitSize) as [un e]. simpl in Hun, He.
    assert (Hok : (if negb neg && (un >=? 2 ^ (bitSize - 1))
                   then (2 ^ (bitSize - 1) - 1,
                         strconv.rangeError "ParseInt" (String c rest))
                   else if neg && (un >? 2 ^ (bitSize - 1))
                   then (- 2 ^ (bitSize - 1),
                         strconv.rangeError "ParseInt" (String c rest))
                   else (if neg then - un else un, None)) = (i, None) ->
                  - 2 ^ (bitSize - 1) <= i < 2 ^ (bitSize - 1)).
    { destruct neg; simpl.
      - destruct (un >? _) eqn:Hc; [done|]. intros [= <-]. lia.
      - destruct (un >=? _) eqn:Hc; [done|]. intros [= <-]. lia. }
    apply elem_of_cons in He as [->|He]; [done|].
    apply elem_of_cons in He as [->|He]; [done|].
    apply elem_of_cons in He as [->|He]; [done|].
    by apply elem_of_nil in He. }
  destruct (Ascii.eqb c "+"); [apply (Hcase false)|].
  destruct (Ascii.eqb c "-"); [apply (Hcase true)|apply (Hcase false)].
Qed.

(** What [parseArg] does to the cell. *)
Lemma parseArg_cell `{Env} route data v :
  match parseArg route data v with
  | (Some _, v') => v' = v
  | (None, v') => Value_Kind v' = Value_Kind v /\ parseable (Value_Kind v) = true
  end.
Proof.
  unfold parseArg.
  destruct v as [b|w i|w u|u|w f|w re im|s|l|l|c|f|d|e|m|p|l|p]; simpl; try done.
  - by destruct (strconv.ParseBool data) as [b' [e|]].
  - destruct w; simpl; by destruct (strconv.ParseInt data _) as [i' [e|]].
  - destruct w; simpl; by destruct (strconv.ParseUint data _) as [u' [e|]].
  - destruct w; simpl; by destruct (ParseFloat data _) as [f' [e|]].
  - by destruct w.
Qed.

Lemma Zero_Kind_parseable t :
  parseable (Value_Kind (Zero t)) = true -> Value_Kind (Zero t) = reflect.Kind_of t.
Proof.
  intros Hp. apply Zero_Kind. intros Hk.
  destruct t as [name k| |]; [|done..]. simpl in Hk. by subst k.
Qed.

(** *** Decimal texts *)

Lemma digit_pretty_N_char k :
  (k < 10)%N -> strconv.digit (pretty_N_char k) = Some (Z.of_N k).
Proof.
  intros Hk.
  assert (k = 0 \/ k = 1 \/ k = 2 \/ k = 3 \/ k = 4 \/ k = 5 \/ k = 6 \/
          k = 7 \/ k = 8 \/ k = 9)%N as Hcases by lia.
  repeat (destruct Hcases as [->|Hcases]; [reflexivity|]). by subst.
Qed.

(** The decimal digits that [pretty] writes in front of [s] are read back
    as the number. *)
Lemma ParseUint_loop_pretty s0 maxVal :
  maxVal <= strconv.maxUint64 -> forall x s,
  Z.of_N x <= maxVal ->
  strconv.ParseUint_loop s0 (pretty_N_go x s) (strconv.maxUint64 / 10 + 1) maxVal 0 =
  strconv.ParseUint_loop s0 s (strconv.maxUint64 / 10 + 1) maxVal (Z.of_N x).
Proof.
  intros Hmax x. induction (N.lt_wf_0 x) as [x _ IH]. intros s Hx.
  assert (x = 0 \/ 0 < x)%N as [->|Hpos] by lia; [by rewrite pretty_N_go_0|].
  rewrite pretty_N_go_step by done.
  pose proof (N.Div0.div_mod x 10) as Hdm.
  pose proof (N.mod_lt x 10 ltac:(lia)) as Hmod.
  pose proof (N.div_lt x 10 Hpos ltac:(lia)) as Hdiv.
  set (q := (x `div` 10)%N) in *. set (r := (x `mod` 10)%N) in *.
  rewrite IH; [|done|lia].
  simpl. rewrite digit_pretty_N_char by done.
  unfold strconv.maxUint64 in *.
  change (2 ^ 64) with 18446744073709551616 in *.
  change ((18446744073709551616 - 1) / 10 + 1) with 1844674407370955162.
  assert ((Z.of_N q >=? 1844674407370955162) = false) as -> by lia.
  replace (Z.of_N q * 10 + Z.of_N r) with (Z.of_N x) by lia.
  rewrite Z.mod_small by lia.
  assert ((Z.of_N x <? Z.of_N q * 10) || (Z.of_N x >? maxVal) = false)
    as -> by lia.
  done.
Qed.

Lemma pretty_N_go_head x s :
  (0 < x)%N ->
  exists c rest, pretty_N_go x s = String c rest /\ exists d, strconv.digit c = Some d.
Proof.
  revert s. induction (N.lt_wf_0 x) as [x _ IH]. intros s Hpos.
  rewrite pretty_N_go_step by done.
  destruct (N.eq_0_gt_0_cases (x `div` 10)) as [->|Hdiv].
  - rewrite pretty_N_go_0. eexists _, _. split; [done|].
    eexists. apply digit_pretty_N_char. by apply N.mod_lt.
  - apply IH; [by apply N.div_lt|done].
Qed.

Lemma ParseUint_pretty bitSize (u : Z) :
  0 <= bitSize <= 64 -> uint_range bitSize u ->
  strconv.ParseUint (pretty u) bitSize = (u, None).
Proof.
  intros Hb [Hu0 Hu]. unfold strconv.ParseUint.
  assert (Hmax : 2 ^ bitSize - 1 <= strconv.maxUint64).
  { unfold strconv.maxUint64.
    pose proof (Z.pow_le_mono_r 2 bitSize 64 ltac:(lia) ltac:(lia)). lia. }
  destruct u as [|p|p]; [|clear Hu0|lia].
  - change (pretty 0) with "0". simpl.
    unfold strconv.maxUint64. change (2 ^ 64) with 18446744073709551616.
    simpl.
    change ((0 * 10 + (Z.pos (2 * (2 * (2 * (2 * (1 + 2 * 1))))) - 48))
            `mod` 18446744073709551616) with 0.
    by assert ((0 >? 2 ^ bitSize - 1) = false) as -> by lia.
  - change (pretty (Z.pos p)) with (pretty_N_go (N.pos p) EmptyString).
    destruct (pretty_N_go_head (N.pos p) EmptyString ltac:(lia))
      as (c & rest & Hhead & _).
    rewrite Hhead at 1. simpl.
    rewrite (ParseUint_loop_pretty _ _ Hmax (N.pos p) EmptyString) by (simpl; lia).
    done.
Qed.

Lemma digit_not_sign c d :
  strconv.digit c = Some d -> Ascii.eqb c "+" = false /\ Ascii.eqb c "-" = false.
Proof.
  intros Hd. split.
  - destruct (Ascii.eqb_spec c "+") as [->|]; [done|done].
  - destruct (Ascii.eqb_spec c "-") as [->|]; [done|done].
Qed.

Lemma ParseInt_pretty bitSize (z : Z) :
  0 < bitSize <= 64 -> int_range bitSize z ->
  strconv.ParseInt (pretty z) bitSize = (z, None).
Proof.
  intros Hb [Hlo Hhi].
  pose proof (Z.pow_pos_nonneg 2 (bitSize - 1) ltac:(lia) ltac:(lia)) as Hpow.
  assert (Hdouble : 2 ^ bitSize = 2 * 2 ^ (bitSize - 1)).
  { rewrite <- Z.pow_succ_r by lia. f_equal. lia. }
  destruct z as [|p|p].
  - change (pretty 0) with "0". unfold strconv.ParseInt.
    change (Ascii.eqb "0" "+") with false. change (Ascii.eqb "0" "-") with false.
    cbv iota beta.
    change "0" with (pretty 0) at 1.
    rewrite ParseUint_pretty by (unfold uint_range; lia).
    simpl. by assert ((0 >=? 2 ^ (bitSize - 1)) = false) as -> by lia.
  - change (pretty (Z.pos p)) with (pretty_N_go (N.pos p) EmptyString).
    destruct (pretty_N_go_head (N.pos p) EmptyString ltac:(lia))
      as (c & rest & Hhead & d & Hd).
    destruct (digit_not_sign c d Hd) as [Hplus Hminus].
    rewrite Hhead. unfold strconv.ParseInt. rewrite Hplus, Hminus.
    rewrite <- Hhead.
    change (pretty_N_go (N.pos p) EmptyString) with (pretty (Z.pos p)).
    rewrite ParseUint_pretty by (unfold uint_range; lia).
    simpl. by assert ((Z.pos p >=? 2 ^ (bitSize - 1)) = false) as -> by lia.
  - change (pretty (Z.neg p)) with (String "-" (pretty (Z.pos p))).
    unfold strconv.ParseInt.
    change (Ascii.eqb "-" "+") with false. change (Ascii.eqb "-" "-") with true.
    cbv iota beta.
    rewrite ParseUint_pretty by (unfold uint_range; lia).
    simpl. by assert ((Z.pos p >? 2 ^ (bitSize - 1)) = false) as -> by lia.
Qed.

(** The arguments that the handler receives at the positions within the
    path arguments are the values that [parseArg] made of them. *)
Lemma invoke_called_path `{Env} route args body in_ ht i t data :
  calls (invoke route args body) = [in_] ->
  handlerType route = Some ht ->
  reflect.Ins ht !! i = Some t -> args !! i = Some data ->
  exists v, parseArg route data (Zero t) = (None, v) /\ in_ !! i = Some v.
Proof.
  intros Hcalls Hht Ht Hdata.
  destruct (invoke_called _ _ _ _ Hcalls)
    as (ht' & h & Hht' & _ & (bound & Hin & Hcall) & _).
  rewrite Hht in Hht'. injection Hht' as <-.
  apply invoke_in_ok in Hin as (vs & -> & Hlen & Hvs). simpl in *.
  destruct (Hvs i t Ht) as (v & Hv & Hlook).
  unfold invoke_arg in Hv. simpl in Hv. rewrite Hdata in Hv.
  exists v. split; [done|].
  destruct (Call_args_spec _ _ _ _ Hcall) as (_ & Hkeep & Hsame).
  destruct ht as [name k|ins outs|ins outs slice fits].
  - unfold Call_args in Hcall. by destruct h.
  - by rewrite (Hsame ins outs eq_refl).
  - rewrite Hkeep; [done|]. rewrite Hlen. simpl. rewrite length_app. simpl.
    apply lookup_lt_Some in Ht as Hlt. simpl in Hlt. rewrite length_app in Hlt.
    simpl in Hlt.
    destruct (decide (i = length ins)) as [->|]; [|lia].
    simpl in Ht. rewrite lookup_app_r, Nat.sub_diag in Ht by lia.
    injection Ht as <-.
    pose proof (parseArg_cell route data (Zero (TNamed slice reflect.Slice))) as Hc.
    rewrite Hv in Hc. by destruct Hc as [_ Hp].
Qed.

(** C3: every parameter of the handler whose position lies within the path
    arguments is bound by [parseArg] to the parse of the argument at that
    position, chosen by the kind of the parameter. When all the parameters
    lie within the path arguments and every argument parses, the handler is
    called with the parsed values (a handler that is an ordinary function
    receives exactly them), and whenever the handler is called it has
    received them. The first argument that fails to parse makes [invoke]
    return no body and an error of kind [UnmarshalError] whose cause is the
    parse error, and the handler is not called. A string parameter takes
    the text as it is; a boolean takes the twelve spellings of
    [strconv.ParseBool]; a signed or unsigned integer takes the decimal
    text of every number in the range of its bit width, gives that number,
    and never gives a number outside the range; a float takes what
    [strconv.ParseFloat] returns at its bit width. The text 42 binds a
    signed integer parameter to 42 and the text abc fails with a syntax
    error. *)
Theorem path_arguments_are_parsed `{Env} (route : Route) (args : list string)
    (body : list byte) (ht : Type_) (h : Dyn) :
  handlerType route = Some ht ->
  handler route = Some h ->
  (forall vs,
     length vs = length (reflect.Ins ht) ->
     (forall i t, reflect.Ins ht !! i = Some t ->
        exists data v, args !! i = Some data /\
          parseArg route data (Zero t) = (None, v) /\ vs !! i = Some v) ->
     match Call_args ht h vs with
     | Some received =>
       invoke route args body =
         mkInvocation [received] (invoke_out route (Call h received))
     | None => invoke route args body = mkInvocation [] None
     end /\
     (forall ins outs t f, ht = TFunc ins outs -> h = mkDyn t f ->
        invoke route args body = mkInvocation [vs] (invoke_out route (f vs)))) /\
  (forall in_, calls (invoke route args body) = [in_] ->
     forall i t data, reflect.Ins ht !! i = Some t -> args !! i = Some data ->
       exists v, parseArg route data (Zero t) = (None, v) /\ in_ !! i = Some v) /\
  (forall i t data e v,
     reflect.Ins ht !! i = Some t -> args !! i = Some data ->
     parseArg route data (Zero t) = (Some e, v) ->
     (forall j tj, (j < i)%nat -> reflect.Ins ht !! j = Some tj ->
        exists vj, invoke_arg route args body j tj = (None, vj)) ->
     invoke route args body =
       mkInvocation [] (Some ([], Some (mkError UnmarshalError (Some e))))) /\
  (forall data name,
     parseArg route data (Zero (TNamed name reflect.String)) = (None, VString data)) /\
  (forall data name,
     (data ∈ ["1"; "t"; "T"; "TRUE"; "true"; "True"] ->
      parseArg route data (Zero (TNamed name reflect.Bool)) = (None, VBool true)) /\
     (data ∈ ["0"; "f"; "F"; "FALSE"; "false"; "False"] ->
      parseArg route data (Zero (TNamed name reflect.Bool)) = (None, VBool false)) /\
     (data ∉ ["1"; "t"; "T"; "TRUE"; "true"; "True";
              "0"; "f"; "F"; "FALSE"; "false"; "False"] ->
      parseArg route data (Zero (TNamed name reflect.Bool)) =
        (Some (NumError "ParseBool" data ErrSyntax), VBool false))) /\
  (forall name w,
     (forall z, int_range (Bits (int_kind w)) z ->
        parseArg route (pretty z) (Zero (TNamed name (int_kind w))) = (None, VInt w z)) /\
     (forall data v,
        parseArg route data (Zero (TNamed name (int_kind w))) = (None, v) ->
        exists i, v = VInt w i /\ int_range (Bits (int_kind w)) i)) /\
  (forall name w,
     (forall u, uint_range (Bits (uint_kind w)) u ->
        parseArg route (pretty u) (Zero (TNamed name (uint_kind w))) = (None, VUint w u)) /\
     (forall data v,
        parseArg route data (Zero (TNamed name (uint_kind w))) = (None, v) ->
        exists u, v = VUint w u /\ uint_range (Bits (uint_kind w)) u)) /\
  (forall data w f0, parseArg route data (VFloat w f0) =
     match ParseFloat data (match w with F32 => 32 | F64 => 64 end) with
     | (f, None) => (None, VFloat w f)
     | (_, err) => (err, VFloat w f0)
     end) /\
  (forall name w,
     parseArg route "42" (Zero (TNamed name (int_kind w))) = (None, VInt w 42) /\
     parseArg route "abc" (Zero (TNamed name (int_kind w))) =
       (Some (NumError "ParseInt" "abc" ErrSyntax), VInt w 0)).
Proof.
  intros Hht Hh. split_and!.
  - intros vs Hlen Hall.
    assert (Hin : invoke_in route (reflect.Ins ht) 0 args body [] = inr vs).
    { apply (invoke_in_all route args body (reflect.Ins ht) 0%nat [] vs Hlen).
      intros k t Hk. destruct (Hall k t Hk) as (data & v & Hdata & Hp & Hv).
      exists v. split; [|done]. unfold invoke_arg. simpl. by rewrite Hdata. }
    split.
    + unfold invoke. rewrite Hht, Hh, Hin. by destruct (Call_args ht h vs).
    + intros ins outs t f -> ->. unfold invoke. by rewrite Hht, Hh, Hin.
  - intros in_ Hcalls i t data Ht Hdata. by eapply invoke_called_path.
  - intros i t data e v Ht Hdata Hparse Hbefore.
    apply (invoke_not_called _ _ _ _ ht h); [done..|].
    apply (invoke_in_fail _ _ _ _ 0%nat [] i t e v); [done| |done].
    unfold invoke_arg. simpl. by rewrite Hdata.
  - intros data name. apply parseArg_string.
  - intros data name. simpl. rewrite parseArg_bool. unfold strconv.ParseBool.
    split_and!.
    + intros Hin. by rewrite bool_decide_eq_true_2.
    + intros Hin. case_bool_decide as Ht; [|by rewrite bool_decide_eq_true_2].
      exfalso. revert Hin Ht. rewrite !elem_of_cons, !elem_of_nil.
      intros Hf Ht.
      repeat (destruct Hf as [->|Hf]; [by intuition discriminate|]). done.
    + intros Hnot. rewrite !bool_decide_eq_false_2; [done|..];
        intros Hin; apply Hnot; revert Hin; rewrite !elem_of_cons; tauto.
  - intros name w. rewrite Zero_int. split.
    + intros z Hz. rewrite parseArg_int, ParseInt_pretty; [done|by destruct w|done].
    + intros data v. rewrite parseArg_int.
      destruct (strconv.ParseInt data _) as [i [e|]] eqn:Hp; [done|].
      intros [= <-]. exists i. split; [done|].
      apply (ParseInt_range data); [by destruct w|done].
  - intros name w. rewrite Zero_uint. split.
    + intros u Hu. rewrite parseArg_uint, ParseUint_pretty; [done|by destruct w|done].
    + intros data v. rewrite parseArg_uint.
      destruct (strconv.ParseUint data _) as [u [e|]] eqn:Hp; [done|].
      intros [= <-]. exists u. split; [done|].
      apply (ParseUint_range data); [by destruct w|done].
  - apply parseArg_float.
  - intros name w. rewrite Zero_int, !parseArg_int, ParseInt_42, ParseInt_abc. done.
Qed.

(** [init] keeps the fields of the route and records the handler. *)
Lemma init_fields route r :
  init route = inr r ->
  exists h, Handler route = Some h /\ handler r = Some h /\
    handlerType r = Some (dynType h) /\
    Path_ r = Path_ route /\ Method r = Method route.
Proof.
  unfold init. intros Hinit.
  destruct (Handler route) as [h|]; [|done].
  repeat (case_match; try done); simplify_eq; by exists h.
Qed.

(** C5, as the code has it: [Route.init] does not look at the types of the
    parameters (two function handlers with the same number of parameters
    and the same results are both accepted or both refused), so a parameter
    of a type that cannot be derived from a path segment is not detected at
    construction. It is reported by each [invoke] that reaches it: the call
    returns no body and an error of kind [UnmarshalError] whose cause is an
    "unsupported argument type" error, and the handler is not called. *)
Theorem unsupported_parameter_type_fails_per_request `{Env} (route : Route) :
  (forall ins ins' outs call call',
     length ins = length ins' ->
     (exists r, init (with_Handler route (mkDyn (TFunc ins outs) call)) = inr r) <->
     (exists r, init (with_Handler route (mkDyn (TFunc ins' outs) call')) = inr r)) /\
  (forall r, init route = inr r ->
     exists h, Handler route = Some h /\ handler r = Some h /\
       handlerType r = Some (dynType h)) /\
  (forall ht h args body i t data,
     handlerType route = Some ht -> handler route = Some h ->
     reflect.Ins ht !! i = Some t ->
     parseable (reflect.Kind_of t) = false ->
     args !! i = Some data ->
     (forall j tj, (j < i)%nat -> reflect.Ins ht !! j = Some tj ->
        exists vj, invoke_arg route args body j tj = (None, vj)) ->
     invoke route args body =
       mkInvocation []
         (Some ([], Some (mkError UnmarshalError (Some (fmtError
            "unsupported argument type for route '%s %s': %s"
            [FString (Method route); FPath (Path_ route);
             FKind (Value_Kind (Zero t))])))))).
Proof.
  split_and!.
  - intros ins ins' outs call call' Hlen. rewrite !init_succeeds_iff. simpl.
    split; intros (h & [= <-] & Hk & Har & Houts);
      unfold reflect.NumIn in *; simpl in *;
      eexists; (split; [done|]); unfold reflect.NumIn; simpl;
      (split; [done|]); (split; [lia|done]).
  - intros r Hinit.
    destruct (init_fields _ _ Hinit) as (h & Hh & Hhr & Hhtr & _). eauto.
  - intros ht h args body i t data Hht Hh Ht Hkind Hdata Hbefore.
    apply (invoke_not_called _ _ _ _ ht h); [done..|].
    apply (invoke_in_fail _ _ _ _ 0%nat [] i t _ (Zero t)); [done| |done].
    unfold invoke_arg. simpl. rewrite Hdata.
    by rewrite parseArg_unsupported by by apply Zero_parseable.
Qed.

(** ** The mux *)

Section MuxFacts.
Context `{Env}.
Implicit Types (mux : Mux) (httpReq : http.Request).


Lemma Mux_Init_DefaultHandler mux :
  mux_initialize mux = false ->
  DefaultHandler (Mux_Init mux) =
    Some (default http.DefaultServeMux (DefaultHandler mux)).
Proof. unfold Mux_Init. intros ->. simpl. by destruct (DefaultHandler mux). Qed.

Lemma Mux_route_no_match mux method path :
  no_match mux method path ->
  Mux_route mux method path =
    (None, [], Some (fmtError "unknown path: '%s'" [FString path])).
Proof. unfold Mux_route. by intros [-> | ->]; [|case_match]. Qed.

(** [Mux.route] returns a route or an error, never both and never none. *)
Lemma Mux_route_cases mux method path :
  (exists route args, Mux_route mux method path = (Some route, args, None)) \/
  (no_match mux method path /\
   Mux_route mux method path =
     (None, [], Some (fmtError "unknown path: '%s'" [FString path]))).
Proof.
  unfold Mux_route, no_match.
  destruct (strings.HasPrefix path (Root mux)); [|by right; split; [left|]].
  destruct (router_Route _ _ _) as [[route args]|]; [left; eauto|].
  right. split; [by right|done].
Qed.

(** [ServeHTTP] once the route is found. *)
Lemma ServeHTTP_matched mux httpReq route args :
  Mux_route (Mux_Init mux) (http.Method httpReq) (http.URL_Path httpReq)
    = (Some route, args, None) ->
  ServeHTTP mux httpReq =
    let mux := Mux_Init mux in
    let contentType := http.Get (http.Header_ httpReq) "Content-Type" in
    if negb (String.eqb contentType "application/json") then
      let err := Some (fmtError
        "unsupported content type: got '%s' expected 'application/json'"
        [FString contentType]) in
      mkServed _ mux (Some (UnsupportedContentType, err)) []
        (respondError mux UnsupportedContentType http.StatusBadRequest err)
    else
      match http.Body httpReq with
      | (_, Some e) =>
        mkServed _ mux (Some (ReadBodyError, Some e)) []
          (respondError mux ReadBodyError http.StatusBadRequest (Some e))
      | (body, None) =>
        let inv := invoke route args body in
        match returned inv with
        | None => mkServed _ mux None (calls inv) None
        | Some (_, Some restError) =>
          mkServed _ mux (Some (Type' restError, Sub restError)) (calls inv)
            (respondError mux (Type' restError) http.StatusBadRequest (Sub restError))
        | Some (resp, None) =>
          mkServed _ mux None (calls inv)
            (Some (if Nat.eqb (length resp) 0
                   then http.WriteHeader http.StatusNoContent
                   else http.Write
                          [("Content-Type", "application/json");
                           ("Content-Length", pretty (Z.of_nat (length resp)))]
                          resp))
        end
      end.
Proof. unfold ServeHTTP. by intros ->. Qed.

Lemma ServeHTTP_no_match mux httpReq :
  no_match (Mux_Init mux) (http.Method httpReq) (http.URL_Path httpReq) ->
  ServeHTTP mux httpReq =
    mkServed _ (Mux_Init mux) None [] (http.ServedBy <$> DefaultHandler (Mux_Init mux)).
Proof. intros Hno. unfold ServeHTTP. by rewrite (Mux_route_no_match _ _ _ Hno). Qed.




(** The kinds of error that [ServeHTTP] hands to [respondError]. *)
Lemma ServeHTTP_raised_kinds mux httpReq t cause :
  raised (ServeHTTP mux httpReq) = Some (t, cause) ->
  t = UnsupportedContentType /\
    http.Get (http.Header_ httpReq) "Content-Type" <> "application/json" \/
  t <> UnsupportedContentType /\
    http.Get (http.Header_ httpReq) "Content-Type" = "application/json" /\
    (t = ReadBodyError \/ t = UnmarshalError \/ t = HandlerError \/ t = MarshalError).
Proof.
  destruct (Mux_route_cases (Mux_Init mux) (http.Method httpReq)
              (http.URL_Path httpReq)) as [(route & args & Hr)|[Hno _]].
  - rewrite (ServeHTTP_matched _ _ _ _ Hr). simpl.
    destruct (String.eqb_spec (http.Get (http.Header_ httpReq) "Content-Type")
                "application/json") as [Heq|Hne]; simpl.
    + destruct (http.Body httpReq) as [body [e|]]; simpl.
      * intros [= <- <-]. right. auto.
      * destruct (returned (invoke route args body)) as [[resp [e|]]|] eqn:Hret;
          simpl; try done.
        intros [= <- <-]. right.
        destruct (invoke_error_kinds _ _ _ _ _ Hret) as [->|[->| ->]]; auto 10.
    + intros [= <- <-]. by left.
  - by rewrite (ServeHTTP_no_match _ _ Hno).
Qed.

End MuxFacts.

(** C6, as the code has it: when no registered route matches the method and
    the path, [Mux.route] returns no route (there is no partial match) and
    a plain "unknown path" error, and [ServeHTTP] raises no structured
    error and calls no route's handler: it hands the request to the mux's
    [DefaultHandler], which is [http.DefaultServeMux] unless another one
    was set. The kind [UnknownRoute] is produced on the client side only,
    by [Response.GetBody] for a response with status 404. *)
Theorem unmatched_request_goes_to_default_handler `{Env} (mux : Mux)
    (httpReq : http.Request) :
  no_match (Mux_Init mux) (http.Method httpReq) (http.URL_Path httpReq) ->
  Mux_route (Mux_Init mux) (http.Method httpReq) (http.URL_Path httpReq) =
    (None, [], Some (fmtError "unknown path: '%s'" [FString (http.URL_Path httpReq)])) /\
  ServeHTTP mux httpReq =
    mkServed _ (Mux_Init mux) None []
      (http.ServedBy <$> DefaultHandler (Mux_Init mux)) /\
  (mux_initialize mux = false ->
   written (ServeHTTP mux httpReq) =
     Some (http.ServedBy (default http.DefaultServeMux (DefaultHandler mux)))) /\
  (forall resp obj, Error' resp = None -> Code resp = http.StatusNotFound ->
     GetBody resp obj =
       Some (mkError UnknownRoute
               (Some (errorString (String.string_of_list_byte (Body resp)))))).
Proof.
  intros Hno. split_and!.
  - by apply Mux_route_no_match.
  - by apply ServeHTTP_no_match.
  - intros Hinit. rewrite (ServeHTTP_no_match _ _ Hno). simpl.
    by rewrite Mux_Init_DefaultHandler.
  - intros resp obj Herr Hcode. unfold GetBody, GetBody_arm.
    by rewrite Herr, Hcode.
Qed.

(** C7, as the code has it: for a request that resolves to a registered
    route, [ServeHTTP] raises [UnsupportedContentType] if and only if the
    value of the Content-Type header is not exactly application/json,
    whether or not the request has a body; the handler is then not called.
    In particular a matched request without a Content-Type header is
    rejected with [UnsupportedContentType]. *)
Theorem content_type_must_be_json `{Env} (mux : Mux) (httpReq : http.Request)
    (route : Route) (args : list string) :
  Mux_route (Mux_Init mux) (http.Method httpReq) (http.URL_Path httpReq)
    = (Some route, args, None) ->
  ((exists cause, raised (ServeHTTP mux httpReq) = Some (UnsupportedContentType, cause))
   <-> http.Get (http.Header_ httpReq) "Content-Type" <> "application/json") /\
  (http.Get (http.Header_ httpReq) "Content-Type" <> "application/json" ->
   served_calls (ServeHTTP mux httpReq) = []) /\
  (http.Header_ httpReq !! "Content-Type" = None ->
   raised (ServeHTTP mux httpReq) =
     Some (UnsupportedContentType,
           Some (fmtError
             "unsupported content type: got '%s' expected 'application/json'"
             [FString EmptyString]))).
Proof.
  intros Hr.
  assert (Hne : http.Get (http.Header_ httpReq) "Content-Type" <> "application/json" ->
    ServeHTTP mux httpReq =
      mkServed _ (Mux_Init mux)
        (Some (UnsupportedContentType, Some (fmtError
           "unsupported content type: got '%s' expected 'application/json'"
           [FString (http.Get (http.Header_ httpReq) "Content-Type")]))) []
        (respondError (Mux_Init mux) UnsupportedContentType http.StatusBadRequest
           (Some (fmtError
              "unsupported content type: got '%s' expected 'application/json'"
              [FString (http.Get (http.Header_ httpReq) "Content-Type")])))).
  { intros Hct. rewrite (ServeHTTP_matched _ _ _ _ Hr). simpl.
    by destruct (String.eqb_spec (http.Get (http.Header_ httpReq) "Content-Type")
                   "application/json"). }
  split_and!.
  - split.
    + intros [cause Hraised].
      destruct (ServeHTTP_raised_kinds _ _ _ _ Hraised) as [[_ ?]|[? _]]; done.
    + intros Hct. rewrite (Hne Hct). eauto.
  - intros Hct. by rewrite (Hne Hct).
  - intros Hnone.
    assert (Hget : http.Get (http.Header_ httpReq) "Content-Type" = EmptyString).
    { unfold http.Get. by rewrite Hnone. }
    rewrite Hne; rewrite Hget; done.
Qed.


(** ** The client response *)

(** C8: in [Response.GetBody] the condition of the status-range check,
    [resp.Code < 200 && resp.Code >= 300], is false for every status code,
    so that arm of the chain never runs, and the only error of kind
    [UnexpectedStatusCode] that [GetBody] builds itself is the one for the
    status 204. *)
Theorem status_range_check_is_dead `{Env} (resp : Response) (obj : option Value) :
  ((Code resp <? 200) && (Code resp >=? 300) = false) /\
  fst (GetBody_arm resp obj) <> ArmStatusRange /\
  (forall e, Error' resp = None -> GetBody resp obj = Some e ->
     Type' e = UnexpectedStatusCode ->
     Code resp = 204 /\
     e = ErrorFmt UnexpectedStatusCode "unexpected status code: 204" []).
Proof.
  assert (Hdead : (Code resp <? 200) && (Code resp >=? 300) = false).
  { destruct (Code resp <? 200) eqn:H1; [|done].
    destruct (Code resp >=? 300) eqn:H2; [|done]. zbool. lia. }
  split; [done|]. unfold GetBody, GetBody_arm. rewrite Hdead.
  split.
  - repeat (case_match; simpl; try done).
  - intros e ->. destruct (Code resp =? http.StatusNotFound); simpl; [by intros [= <-]|].
    destruct (Code resp >=? 400); simpl; [by intros [= <-]|].
    destruct (Code resp =? http.StatusNoContent) eqn:H204; simpl.
    + destruct obj; [|done]. intros [= <-] _. split; [|done].
      by apply Z.eqb_eq in H204.
    + destruct (negb _); simpl; [by intros [= <-]|done].
Qed.

(** C9 fails on the code: when the earlier checks pass, [GetBody] runs
    [json.Unmarshal] but tests the named result [err], which is still nil,
    instead of the error of the decoder; a decoding error is dropped and
    [GetBody] returns nil. *)
Theorem decode_error_is_dropped `{Env} (resp : Response) (obj : option Value)
    (jsonErr : goerror) :
  Error' resp = None ->
  Code resp <> 404 -> Code resp < 400 -> Code resp <> 204 ->
  http.Get (Header resp) "Content-Type" = "application/json" ->
  json_Unmarshal (Body resp) obj = Some jsonErr ->
  GetBody_arm resp obj = (ArmUnmarshal, None).
Proof.
  intros Herr H404 H400 H204 Hct _. unfold GetBody_arm. rewrite Herr, Hct.
  assert ((Code resp =? http.StatusNotFound) = false) as -> by (unfold http.StatusNotFound; lia).
  assert ((Code resp >=? 400) = false) as -> by lia.
  assert ((Code resp =? http.StatusNoContent) = false) as -> by (unfold http.StatusNoContent; lia).
  by destruct ((Code resp <? 200) && (Code resp >=? 300)) eqn:Hd;
    [destruct (Code resp <? 200) eqn:H1; destruct (Code resp >=? 300) eqn:H2;
     try done; zbool; lia|].
Qed.

(** ** The theorems at concrete routes, requests and responses *)

(** C1 fails as an equivalence on the arity alone: [func() (int, int, int)]
    on a path without arguments has the right number of parameters, and
    [init] panics on its three results. *)
Lemma arity_alone_counterexample :
  init Example.ping3 =
    inl (Panicf "too many return arguments for route %s"
           [FRoute "GET" [Literal "ping"]]) /\
  ~ ((exists r, init Example.ping3 = inr r) <->
     exists h, Handler Example.ping3 = Some h /\
       reflect.Kind_of (dynType h) = reflect.Func /\
       (reflect.NumIn (dynType h) = NumArgs (Path_ Example.ping3) \/
        reflect.NumIn (dynType h) = NumArgs (Path_ Example.ping3) + 1)).
Proof.
  split; [reflexivity|]. intros [_ Hif].
  destruct Hif as [r Hr]; [|discriminate Hr].
  exists Example.ping3_handler. split; [reflexivity|].
  split; [reflexivity|]. left. reflexivity.
Qed.

Lemma init_arity_and_results_witness :
  reflect.NumIn (dynType Example.sum_handler) > NumArgs (Path_ Example.sum) + 1 /\
  init Example.sum =
    inl (Panicf "not enough path arguments for route { %s %s }: %d < %d"
           [FString "GET"; FPath [Literal "sum"]; FInt 0; FInt 1]).
Proof.
  split; [reflexivity|].
  apply (proj1 (proj2 (init_arity_and_results Example.sum)
                  Example.sum_handler eq_refl eq_refl)).
  reflexivity.
Defined.

Lemma handler_error_short_circuits_witness :
  0 <= outError (Example.initialised Example.fail) /\
  invoke (H := Example.env) (Example.initialised Example.fail) [] [] =
    mkInvocation [[]]
      (Some ([], Some (mkError HandlerError (Some (errorString "boom"))))).
Proof.
  split; [vm_compute; discriminate|].
  apply (handler_error_short_circuits (H := Example.env) _ [] [] []
           Example.fail_handler (errorString "boom"));
    [reflexivity | reflexivity | vm_compute; discriminate | reflexivity].
Defined.

Lemma path_arguments_are_parsed_witness :
  calls (invoke (H := Example.env) (Example.initialised Example.square) ["12"] []) =
    [[VInt W0 12]] /\
  invoke (H := Example.env) (Example.initialised Example.square) ["abc"] [] =
    mkInvocation []
      (Some ([], Some (mkError UnmarshalError
                         (Some (NumError "ParseInt" "abc" ErrSyntax))))).
Proof.
  pose proof (path_arguments_are_parsed (H := Example.env)
                (Example.initialised Example.square) ["12"] []
                (dynType Example.square_handler) Example.square_handler
                eq_refl eq_refl) as Hgood.
  pose proof (path_arguments_are_parsed (H := Example.env)
                (Example.initialised Example.square) ["abc"] []
                (dynType Example.square_handler) Example.square_handler
                eq_refl eq_refl) as Hbad.
  split.
  - destruct Hgood as [Hcall _].
    destruct (Hcall [VInt W0 12] eq_refl) as [_ Hfunc].
    + intros [|i] t Ht; [|destruct i; discriminate].
      injection Ht as <-. exists "12", (VInt W0 12). by vm_compute.
    + by rewrite (Hfunc _ _ _ _ eq_refl eq_refl).
  - destruct Hbad as (_ & _ & Hfail & _).
    apply (Hfail 0%nat Example.int "abc" _ (VInt W0 0) eq_refl eq_refl eq_refl).
    intros j tj Hj. lia.
Defined.

Lemma response_body_of_result_witness :
  outError (Example.initialised Example.hello) < 0 /\
  returned (invoke (H := Example.env) (Example.initialised Example.hello) ["bob"] []) =
    Some (Example.bytes (Example.quote +:+ "hello bob" +:+ Example.quote) ++ [x0a],
          None).
Proof.
  split; [reflexivity|].
  destruct (response_body_of_result (H := Example.env)
              (Example.initialised Example.hello) ["bob"] [] [VString "bob"]
              Example.hello_handler eq_refl eq_refl (or_introl eq_refl))
    as (_ & Hbody & _).
  destruct (Hbody (VString "hello bob")) as (_ & Henc & _).
  - vm_compute; discriminate.
  - reflexivity.
  - apply Henc; reflexivity.
Defined.

(** C5 fails on the code: the route [GET /items/:id -> func(id Item) error]
    with a struct parameter is accepted by [init], and the request for
    [/items/7] fails with a per-request [UnmarshalError]. *)
Lemma struct_parameter_counterexample :
  parseable (reflect.Kind_of Example.Item) = false /\
  Init Example.item = inr (Example.initialised Example.item) /\
  invoke (H := Example.env) (Example.initialised Example.item) ["7"] [] =
    mkInvocation []
      (Some ([], Some (mkError UnmarshalError (Some (fmtError
         "unsupported argument type for route '%s %s': %s"
         [FString "GET"; FPath [Literal "items"; Argument "id"];
          FKind reflect.Struct]))))).
Proof. split; [reflexivity|]. split; reflexivity. Qed.

Lemma unsupported_parameter_type_witness :
  parseable (reflect.Kind_of Example.Item) = false /\
  invoke (H := Example.env) (Example.initialised Example.item) ["7"] [] =
    mkInvocation []
      (Some ([], Some (mkError UnmarshalError (Some (fmtError
         "unsupported argument type for route '%s %s': %s"
         [FString "GET"; FPath [Literal "items"; Argument "id"];
          FKind reflect.Struct]))))).
Proof.
  split; [reflexivity|].
  apply (proj2 (proj2 (unsupported_parameter_type_fails_per_request
                         (H := Example.env) (Example.initialised Example.item)))
           (dynType Example.item_handler) Example.item_handler ["7"] []
           0%nat Example.Item "7" eq_refl eq_refl eq_refl eq_refl eq_refl).
  intros j tj Hj. lia.
Defined.

(** C6 fails on the code: a request for a path that no route matches is
    handed to the default handler, and no error of kind [UnknownRoute] is
    raised. *)
Lemma unknown_route_counterexample :
  no_match (Mux_Init Example.mux) "GET" "/nothing" /\
  ~ (exists cause, raised (ServeHTTP Example.mux Example.nothing_request)
                   = Some (UnknownRoute, cause)) /\
  written (ServeHTTP Example.mux Example.nothing_request)
    = Some (http.ServedBy http.DefaultServeMux).
Proof.
  split; [right; reflexivity|]. split; [|reflexivity].
  intros [cause Hc]. vm_compute in Hc. discriminate Hc.
Qed.

Lemma unmatched_request_witness :
  no_match (Mux_Init Example.mux) "GET" "/nothing" /\
  written (ServeHTTP Example.mux Example.nothing_request)
    = Some (http.ServedBy http.DefaultServeMux).
Proof.
  assert (Hno : no_match (Mux_Init Example.mux)
                  (http.Method Example.nothing_request)
                  (http.URL_Path Example.nothing_request))
    by (right; reflexivity).
  split; [exact Hno|].
  apply (proj1 (proj2 (proj2 (unmatched_request_goes_to_default_handler
                                Example.mux Example.nothing_request Hno)))).
  reflexivity.
Defined.

(** C7 fails on the code: the matched request [GET /hello/bob] without a
    body and without a Content-Type header is rejected with
    [UnsupportedContentType]. *)
Lemma bare_request_counterexample :
  (exists route args,
     Mux_route (Mux_Init Example.mux) "GET" "/hello/bob" = (Some route, args, None)) /\
  http.Body Example.bare_request = ([], None) /\
  http.Header_ Example.bare_request !! "Content-Type" = None /\
  raised (ServeHTTP Example.mux Example.bare_request) =
    Some (UnsupportedContentType,
          Some (fmtError
            "unsupported content type: got '%s' expected 'application/json'"
            [FString EmptyString])).
Proof.
  split; [eexists _, _; reflexivity|]. split; [reflexivity|].
  split; reflexivity.
Qed.

Lemma content_type_must_be_json_witness :
  http.Header_ Example.bare_request !! "Content-Type" = None /\
  raised (ServeHTTP Example.mux Example.bare_request) =
    Some (UnsupportedContentType,
          Some (fmtError
            "unsupported content type: got '%s' expected 'application/json'"
            [FString EmptyString])).
Proof.
  split; [reflexivity|].
  apply (proj2 (proj2 (content_type_must_be_json Example.mux Example.bare_request
                         (Example.initialised Example.hello) ["bob"] eq_refl))).
  reflexivity.
Defined.



Lemma status_range_check_is_dead_witness :
  Code Example.empty_response = 204 /\
  fst (GetBody_arm (H := Example.env) Example.empty_response Example.obj)
    <> ArmStatusRange.
Proof.
  split.
  - apply (proj2 (proj2 (status_range_check_is_dead (H := Example.env)
                           Example.empty_response Example.obj))
             (ErrorFmt UnexpectedStatusCode "unexpected status code: 204" []));
      reflexivity.
  - apply (proj1 (proj2 (status_range_check_is_dead (H := Example.env)
                           Example.empty_response Example.obj))).
Defined.

Lemma decode_error_is_dropped_witness :
  json_Unmarshal (Env := Example.env) (Body Example.broken_response) Example.obj
    = Some (foreignError "json: cannot unmarshal") /\
  GetBody (H := Example.env) Example.broken_response Example.obj = None.
Proof.
  split; [reflexivity|].
  unfold GetBody.
  rewrite (decode_error_is_dropped (H := Example.env) Example.broken_response
             Example.obj (foreignError "json: cannot unmarshal"));
    [reflexivity | reflexivity | discriminate | reflexivity | discriminate
    | reflexivity | reflexivity].
Defined.


(** ** Further properties of the route *)

Lemma init_outs_slots route outs : forall i ob oe ob' oe', 0 <= i ->
  init_outs route outs i ob oe = inr (ob', oe') ->
  (num_errors outs = 0%nat /\ oe' = oe \/
   exists k t, oe' = i + Z.of_nat k /\ outs !! k = Some t /\ is_errorType t = true) /\
  (num_plain outs = 0%nat /\ ob' = ob \/
   exists k t, ob' = i + Z.of_nat k /\ outs !! k = Some t /\ is_errorType t = false).
Proof.
  induction outs as [|t outs IH]; intros i ob oe ob' oe' Hi Hinit; simpl in Hinit.
  - injection Hinit as <- <-. split; left; done.
  - destruct (num_cons t outs) as [-> ->].
    destruct (is_errorType t) eqn:Ht.
    + destruct (oe >=? 0); [done|].
      apply IH in Hinit as [Herr Hplain]; [|lia]. split.
      * right. destruct Herr as [[_ ->]|(k & t' & -> & Hk & Ht')].
        -- exists 0%nat, t. split; [lia|done].
        -- exists (S k), t'. split; [lia|done].
      * destruct Hplain as [[? ->]|(k & t' & -> & Hk & Ht')]; [by left|].
        right. exists (S k), t'. split; [lia|done].
    + destruct (ob >=? 0); [done|].
      apply IH in Hinit as [Herr Hplain]; [|lia]. split.
      * destruct Herr as [[? ->]|(k & t' & -> & Hk & Ht')]; [by left|].
        right. exists (S k), t'. split; [lia|done].
      * right. destruct Hplain as [[_ ->]|(k & t' & -> & Hk & Ht')].
        -- exists 0%nat, t. split; [lia|done].
        -- exists (S k), t'. split; [lia|done].
Qed.

Lemma init_slots route r :
  init route = inr r ->
  exists h, Handler route = Some h /\ handler r = Some h /\
    handlerType r = Some (dynType h) /\
    (num_errors (reflect.Outs (dynType h)) = 0%nat /\ outError r = -1 \/
     exists t, 0 <= outError r /\
       reflect.Outs (dynType h) !! Z.to_nat (outError r) = Some t /\
       is_errorType t = true) /\
    (num_plain (reflect.Outs (dynType h)) = 0%nat /\ outBody r = -1 \/
     exists t, 0 <= outBody r /\
       reflect.Outs (dynType h) !! Z.to_nat (outBody r) = Some t /\
       is_errorType t = false).
Proof.
  unfold init. intros Hinit.
  destruct (Handler route) as [h|]; [|done].
  destruct (negb _); [done|].
  destruct (_ <? _ - 1); [done|]. destruct (_ >? _); [done|].
  destruct (_ >? 2); [done|].
  destruct (init_outs _ _ _ _ _) as [|[ob oe]] eqn:Houts; [done|].
  injection Hinit as <-. simpl.
  apply init_outs_slots in Houts as [Herr Hplain]; [|lia].
  exists h. split_and!; try done.
  - destruct Herr as [?|(k & t & -> & Hk & Ht)]; [by left|].
    right. exists t. split; [lia|]. by rewrite Z.add_0_l, Nat2Z.id.
  - destruct Hplain as [?|(k & t & -> & Hk & Ht)]; [by left|].
    right. exists t. split; [lia|]. by rewrite Z.add_0_l, Nat2Z.id.
Qed.

(** X1: when [Route.init] succeeds, [outError] is -1 if the handler has no
    result of type [error] and otherwise the index of a result of type
    [error]; [outBody] is -1 if the handler has no other result and
    otherwise the index of a result whose type is not [error]. *)
Theorem init_result_slots (route r : Route) (h : Dyn) :
  init route = inr r ->
  Handler route = Some h ->
  (num_errors (reflect.Outs (dynType h)) = 0%nat /\ outError r = -1 \/
   exists t, 0 <= outError r /\
     reflect.Outs (dynType h) !! Z.to_nat (outError r) = Some t /\
     is_errorType t = true) /\
  (num_plain (reflect.Outs (dynType h)) = 0%nat /\ outBody r = -1 \/
   exists t, 0 <= outBody r /\
     reflect.Outs (dynType h) !! Z.to_nat (outBody r) = Some t /\
     is_errorType t = false).
Proof.
  intros Hinit Hh.
  destruct (init_slots _ _ Hinit) as (h' & Hh' & _ & _ & Hslots).
  rewrite Hh in Hh'. by injection Hh' as <-.
Qed.

Lemma init_initialize route r : init route = inr r -> initialize r = initialize route.
Proof.
  unfold init. intros Hinit.
  destruct (Handler route) as [h|]; [|done].
  repeat (case_match; try done); by simplify_eq.
Qed.

(** X2: [Route.Init] runs [init] once. After a first call that succeeds,
    the route is marked as initialised, a second call returns it unchanged,
    and so does a call after the [Handler] field has been replaced, whatever
    the new handler is: it is not validated again. *)
Theorem Init_runs_once (route r : Route) :
  initialize route = false ->
  Init route = inr r ->
  initialize r = true /\ Init r = inr r /\
  forall h, Init (with_Handler r h) = inr (with_Handler r h).
Proof.
  unfold Init at 1. intros -> Hinit.
  apply init_initialize in Hinit. simpl in Hinit.
  unfold Init, with_Handler. simpl. by rewrite Hinit.
Qed.

(** X3: when [parseArg] fails, the cell keeps its content; when it
    succeeds, the cell keeps its kind, which is one of string, bool, the
    signed and unsigned integers and the floats. *)
Theorem parseArg_keeps_the_cell `{Env} (route : Route) (data : string)
    (v v' : Value) (err : error) :
  parseArg route data v = (err, v') ->
  (err <> None -> v' = v) /\
  (err = None -> Value_Kind v' = Value_Kind v /\ parseable (Value_Kind v) = true).
Proof.
  intros Hp. pose proof (parseArg_cell route data v) as Hc. rewrite Hp in Hc.
  destruct err; split; try done.
Qed.

(** X4: the handler is called with as many arguments as it has parameters,
    and every argument taken from the path has the kind of its parameter. *)
Theorem handler_arguments_fit `{Env} (route : Route) (args : list string)
    (body : list byte) (in_ : list Value) (ht : Type_) :
  calls (invoke route args body) = [in_] ->
  handlerType route = Some ht ->
  length in_ = length (reflect.Ins ht) /\
  (forall i t v, reflect.Ins ht !! i = Some t -> (i < length args)%nat ->
     in_ !! i = Some v -> Value_Kind v = reflect.Kind_of t).
Proof.
  intros Hcalls Hht. split.
  - destruct (invoke_called _ _ _ _ Hcalls)
      as (ht' & h & Hht' & _ & (bound & Hin & Hcall) & _).
    rewrite Hht in Hht'. injection Hht' as <-.
    apply invoke_in_ok in Hin as (vs & -> & Hlen & _). simpl in *.
    by destruct (Call_args_spec _ _ _ _ Hcall) as (-> & _).
  - intros i t v Ht Hi Hv.
    destruct (lookup_lt_is_Some_2 args i Hi) as [data Hdata].
    destruct (invoke_called_path _ _ _ _ _ _ _ _ Hcalls Hht Ht Hdata)
      as (v0 & Hp & Hv0).
    rewrite Hv in Hv0. injection Hv0 as <-.
    pose proof (parseArg_cell route data (Zero t)) as Hc. rewrite Hp in Hc.
    destruct Hc as [-> Hpar]. by apply Zero_Kind_parseable.
Qed.

(** The arguments that the handler receives at the positions beyond the
    path arguments, the last parameter of a variadic handler apart, are the
    values that [json_Decode] made of the body. *)
Lemma invoke_called_body `{Env} route args body in_ ht i t :
  calls (invoke route args body) = [in_] ->
  handlerType route = Some ht ->
  reflect.Ins ht !! i = Some t -> (length args <= i)%nat ->
  exists v, json_Decode body (Zero t) = (None, v) /\
    ((forall ins outs slice fits, ht <> TVariadic ins outs slice fits) \/
     (S i < length (reflect.Ins ht))%nat -> in_ !! i = Some v) /\
    (forall ins outs slice fits, ht = TVariadic ins outs slice fits ->
       S i = length (reflect.Ins ht) ->
       in_ !! i = Some (VSlice (Some [VInterface (Some v)]))).
Proof.
  intros Hcalls Hht Ht Hi.
  destruct (invoke_called _ _ _ _ Hcalls)
    as (ht' & h & Hht' & _ & (bound & Hin & Hcall) & _).
  rewrite Hht in Hht'. injection Hht' as <-.
  apply invoke_in_ok in Hin as (vs & -> & Hlen & Hvs). simpl in *.
  destruct (Hvs i t Ht) as (v & Hv & Hlook).
  unfold invoke_arg in Hv. simpl in Hv.
  rewrite (lookup_ge_None_2 args i Hi) in Hv.
  exists v. split; [done|].
  destruct (Call_args_spec _ _ _ _ Hcall) as (_ & Hkeep & Hsame).
  split.
  - intros [Hnv|Hlt].
    + destruct ht as [name k|ins outs|ins outs slice fits].
      * unfold Call_args in Hcall. by destruct h.
      * by rewrite (Hsame ins outs eq_refl).
      * by destruct (Hnv ins outs slice fits).
    + rewrite Hkeep; [done|lia].
  - intros ins outs slice fits -> Hlast.
    unfold Call_args in Hcall. destruct h as [th f|th]; [|done].
    destruct (reverse vs) as [|x before] eqn:Hrev; [done|].
    destruct fits; [|done]. injection Hcall as <-.
    apply (f_equal reverse) in Hrev.
    rewrite reverse_involutive, reverse_cons in Hrev. subst vs.
    rewrite length_app in Hlen. simpl in Hlen, Hlast. rewrite <- Hlen in Hlast.
    assert (i = length (reverse before)) as -> by lia.
    rewrite lookup_app_r, Nat.sub_diag in Hlook by lia. injection Hlook as ->.
    by rewrite lookup_app_r, Nat.sub_diag by lia.
Qed.

(** X5: every parameter whose position lies beyond the path arguments is
    bound to the JSON decoding of the request body into a new cell of its
    type. When every parameter is bound, those within the path arguments by
    [parseArg] and the others by the decoding of the body, the handler is
    called with the values bound (a handler that is an ordinary function
    receives exactly them; reflection packs the last argument of a variadic
    handler, or panics), and a handler that is called has received the
    decoded values. The first decoding that fails, all earlier parameters
    being bound, makes [invoke] return no body and an error of kind
    [UnmarshalError] whose cause is the decoding error, and the handler is
    not called. *)
Theorem body_arguments_are_decoded `{Env} (route : Route) (args : list string)
    (body : list byte) (ht : Type_) (h : Dyn) :
  handlerType route = Some ht ->
  handler route = Some h ->
  (forall vs,
     length vs = length (reflect.Ins ht) ->
     (forall i t, reflect.Ins ht !! i = Some t ->
        exists v, vs !! i = Some v /\
          match args !! i with
          | Some data => parseArg route data (Zero t)
          | None => json_Decode body (Zero t)
          end = (None, v)) ->
     match Call_args ht h vs with
     | Some received =>
       invoke route args body =
         mkInvocation [received] (invoke_out route (Call h received))
     | None => invoke route args body = mkInvocation [] None
     end /\
     (forall ins outs t f, ht = TFunc ins outs -> h = mkDyn t f ->
        invoke route args body = mkInvocation [vs] (invoke_out route (f vs)))) /\
  (forall in_, calls (invoke route args body) = [in_] ->
     forall i t, reflect.Ins ht !! i = Some t -> (length args <= i)%nat ->
       exists v, json_Decode body (Zero t) = (None, v) /\
         ((forall ins outs slice fits, ht <> TVariadic ins outs slice fits) \/
          (S i < length (reflect.Ins ht))%nat -> in_ !! i = Some v) /\
         (forall ins outs slice fits, ht = TVariadic ins outs slice fits ->
            S i = length (reflect.Ins ht) ->
            in_ !! i = Some (VSlice (Some [VInterface (Some v)])))) /\
  (forall i t e v,
     reflect.Ins ht !! i = Some t -> (length args <= i)%nat ->
     json_Decode body (Zero t) = (Some e, v) ->
     (forall j tj, (j < i)%nat -> reflect.Ins ht !! j = Some tj ->
        exists vj, invoke_arg route args body j tj = (None, vj)) ->
     invoke route args body =
       mkInvocation [] (Some ([], Some (mkError UnmarshalError (Some e))))).
Proof.
  intros Hht Hh. split_and!.
  - intros vs Hlen Hall.
    assert (Hin : invoke_in route (reflect.Ins ht) 0 args body [] = inr vs).
    { apply (invoke_in_all route args body (reflect.Ins ht) 0%nat [] vs Hlen).
      intros k t Hk. destruct (Hall k t Hk) as (v & Hv & Hp).
      exists v. by split. }
    split.
    + unfold invoke. rewrite Hht, Hh, Hin. by destruct (Call_args ht h vs).
    + intros ins outs t f -> ->. unfold invoke. by rewrite Hht, Hh, Hin.
  - intros in_ Hcalls i t Ht Hi. by eapply invoke_called_body.
  - intros i t e v Ht Hi Hdec Hbefore.
    apply (invoke_not_called _ _ _ _ ht h); [done..|].
    apply (invoke_in_fail _ _ _ _ 0%nat [] i t e v); [done| |done].
    unfold invoke_arg. simpl. by rewrite (lookup_ge_None_2 args i Hi).
Qed.

(** X6: [invoke] never returns a body together with an error: whenever it
    returns an error the body is empty, and the kind of the error is
    [UnmarshalError], [HandlerError] or [MarshalError]. *)
Theorem invoke_error_has_no_body `{Env} (route : Route) (args : list string)
    (body resp : list byte) (e : Error) :
  returned (invoke route args body) = Some (resp, Some e) ->
  resp = [] /\
  (Type' e = UnmarshalError \/ Type' e = HandlerError \/ Type' e = MarshalError).
Proof.
  intros Hret. split; [|by eapply invoke_error_kinds].
  revert Hret. unfold invoke.
  destruct (handlerType route) as [ht|]; [|done].
  destruct (handler route) as [h|]; [|done].
  destruct (invoke_in _ _ _ _ _ _) as [e'|in_]; simpl; [by intros [= <- _]|].
  destruct (Call_args ht h in_) as [received|]; [|done]. simpl.
  unfold invoke_out, json_Encode. intros Hret.
  repeat (case_match; simplify_eq; simpl; auto).
Qed.

Lemma conforms_lookup outs out k t :
  conforms outs out -> outs !! k = Some t ->
  exists v, out !! k = Some v /\ (is_errorType t = true -> exists e, v = VError e).
Proof.
  intros Hc Hk. destruct (Forall2_lookup_l _ _ _ _ _ Hc Hk) as (v & Hv & Hcv). eauto.
Qed.

(** On a route that [init] accepted, the second half of [invoke] does not
    panic on results that conform to the result types of the handler. *)
Lemma invoke_out_conforms `{Env} (route r : Route) (h : Dyn) (out : list Value) :
  init route = inr r ->
  Handler route = Some h ->
  conforms (reflect.Outs (dynType h)) out ->
  invoke_out r out <> None.
Proof.
  intros Hinit Hh Hconf.
  destruct (init_slots _ _ Hinit) as (h' & Hh' & Hhr & Hhtr & Herr & Hplain).
  rewrite Hh in Hh'. injection Hh' as <-.
  unfold invoke_out.
  assert (Hbody : (if outBody r >=? 0
                   then match out !! Z.to_nat (outBody r) with
                        | Some v =>
                          match isNil r v with
                          | Some true => Some ([], None)
                          | Some false =>
                            match json_Encode v with
                            | (ret, None) => Some (ret, None)
                            | (_, Some e) =>
                              Some ([], Some (mkError MarshalError (Some e)))
                            end
                          | None => None
                          end
                        | None => None
                        end
                   else Some ([], None)) <> None).
  { destruct Hplain as [[_ ->]|(t & Hge & Ht & _)]; [done|].
    assert ((outBody r >=? 0) = true) as -> by lia.
    destruct (conforms_lookup _ _ _ _ Hconf Ht) as (v & -> & _).
    rewrite isNil_empty_value.
    destruct (empty_value v); [done|]. by destruct (json_Encode v) as [ret [e|]]. }
  destruct Herr as [[_ ->]|(t & Hge & Ht & Herrt)]; [done|].
  assert ((outError r >=? 0) = true) as -> by lia.
  destruct (conforms_lookup _ _ _ _ Hconf Ht) as (v & -> & Hv).
  destruct (Hv Herrt) as [e ->]. by destruct e.
Qed.

(** X7: on a route that [init] accepted, and as long as every call of the
    handler returns results that conform to its result types, [invoke]
    panics exactly when every parameter binds and [reflect.Value.Call]
    refuses the call. A handler that is an ordinary function is never
    refused, so [invoke] does not panic: the two result slots are within
    the results, the error slot holds an [error], and [isNil] asks [Len]
    and [IsNil] only of the kinds that have them. A handler that is a nil
    function value is always refused, and a variadic handler is refused
    when the slice bound to its last parameter is not assignable to the
    element type of that parameter: [init] accepts both, and [invoke]
    panics on them as soon as every parameter binds. *)
Theorem invoke_panics_iff `{Env} (route r : Route) (h : Dyn)
    (args : list string) (body : list byte) :
  init route = inr r ->
  Handler route = Some h ->
  (forall in_, conforms (reflect.Outs (dynType h)) (Call h in_)) ->
  (returned (invoke r args body) = None <->
   exists bound,
     invoke_in r (reflect.Ins (dynType h)) 0 args body [] = inr bound /\
     Call_args (dynType h) h bound = None) /\
  (forall ins outs f, h = mkDyn (TFunc ins outs) f ->
     returned (invoke r args body) <> None) /\
  (forall t, h = nilFunc t ->
     (returned (invoke r args body) = None <->
      exists bound,
        invoke_in r (reflect.Ins t) 0 args body [] = inr bound)) /\
  (forall ins outs slice fits f, h = mkDyn (TVariadic ins outs slice fits) f ->
     (returned (invoke r args body) = None <->
      fits = false /\
      exists bound,
        invoke_in r (ins ++ [TNamed slice reflect.Slice]) 0 args body []
          = inr bound)).
Proof.
  intros Hinit Hh Hconf.
  destruct (init_slots _ _ Hinit) as (h' & Hh' & Hhr & Hhtr & _).
  rewrite Hh in Hh'. injection Hh' as <-.
  assert (Hiff : returned (invoke r args body) = None <->
            exists bound,
              invoke_in r (reflect.Ins (dynType h)) 0 args body [] = inr bound /\
              Call_args (dynType h) h bound = None).
  { unfold invoke. rewrite Hhr, Hhtr.
    destruct (invoke_in _ _ _ _ _ _) as [e|in_]; simpl.
    - split; [done|]. by intros (bound & ? & _).
    - destruct (Call_args (dynType h) h in_) as [received|] eqn:Hcall; simpl.
      + split.
        * intros Hret. by destruct (invoke_out_conforms _ _ _ _ Hinit Hh (Hconf received)).
        * intros (bound & [= <-] & Hnone). by rewrite Hcall in Hnone.
      + split; [|done]. intros _. by exists in_. }
  split_and!.
  - done.
  - intros ins outs f ->. rewrite Hiff. by intros (bound & _ & Hnone).
  - intros t ->. rewrite Hiff. simpl.
    split; [intros (bound & Hin & _); eauto|intros (bound & Hin); eauto].
  - intros ins outs slice fits f ->. rewrite Hiff. simpl. split.
    + intros (bound & Hin & Hnone). split; [|eauto].
      apply invoke_in_ok in Hin as (vs & -> & Hlen & _). simpl in *.
      rewrite length_app in Hlen. simpl in Hlen.
      destruct (reverse vs) as [|x before] eqn:Hrev.
      * apply (f_equal length) in Hrev. rewrite length_reverse in Hrev.
        simpl in Hrev. lia.
      * by destruct fits.
    + intros (-> & bound & Hin). exists bound. split; [done|].
      by destruct (reverse bound).
Qed.

(** X8: an integer that [parseArg] stores fits the type of the cell: a
    signed integer of [b] bits lies between [-2^(b-1)] and [2^(b-1) - 1] and
    an unsigned one between 0 and [2^b - 1], where [b] is 8, 16, 32 or 64
    (64 for [int] and [uint]). A text outside the range is an error. *)
Theorem parsed_integers_fit_the_cell `{Env} (route : Route) (data : string)
    (w : width) (x0 : Z) (v : Value) :
  (parseArg route data (VInt w x0) = (None, v) ->
   exists i, v = VInt w i /\ int_range (Bits (int_kind w)) i) /\
  (parseArg route data (VUint w x0) = (None, v) ->
   exists u, v = VUint w u /\ uint_range (Bits (uint_kind w)) u).
Proof.
  split.
  - rewrite parseArg_int.
    destruct (strconv.ParseInt data _) as [i [e|]] eqn:Hp; [done|].
    intros [= <-]. exists i. split; [done|].
    apply (ParseInt_range data); [by destruct w|done].
  - rewrite parseArg_uint.
    destruct (strconv.ParseUint data _) as [u [e|]] eqn:Hp; [done|].
    intros [= <-]. exists u. split; [done|].
    apply (ParseUint_range data); [by destruct w|done].
Qed.


(** ** Further properties of the mux *)

Lemma rev_app_append s1 : forall s2 s3,
  String.rev_app s1 s2 +:+ s3 = String.rev_app s1 (s2 +:+ s3).
Proof. induction s1 as [|a s1 IH]; intros s2 s3; simpl; [done|]. by rewrite IH. Qed.

Lemma rev_String a s : String.rev (String a s) = String.rev s +:+ String a EmptyString.
Proof. unfold String.rev. simpl. by rewrite rev_app_append. Qed.

Lemma append_String a (s1 s2 : string) : String a s1 +:+ s2 = String a (s1 +:+ s2).
Proof. reflexivity. Qed.

Lemma append_assoc (s1 s2 s3 : string) : (s1 +:+ s2) +:+ s3 = s1 +:+ (s2 +:+ s3).
Proof. induction s1 as [|a s1 IH]; [done|]. by rewrite !append_String, IH. Qed.

Lemma append_nil_r (s : string) : s +:+ EmptyString = s.
Proof. induction s as [|a s IH]; [done|]. by rewrite append_String, IH. Qed.

Lemma rev_append s1 s2 : String.rev (s1 +:+ s2) = String.rev s2 +:+ String.rev s1.
Proof.
  induction s1 as [|a s1 IH].
  - by rewrite append_nil_r.
  - by rewrite append_String, !rev_String, IH, append_assoc.
Qed.

Lemma rev_involutive s : String.rev (String.rev s) = s.
Proof.
  induction s as [|a s IH]; [done|].
  by rewrite rev_String, rev_append, IH.
Qed.

Lemma only_rev c s : only c s = true -> only c (String.rev s) = true.
Proof.
  assert (Happ : forall s1 s2, only c s1 = true -> only c s2 = true ->
                               only c (s1 +:+ s2) = true).
  { induction s1 as [|a s1 IH]; intros s2; [done|].
    rewrite append_String. simpl. intros [-> ?]%andb_prop ?. simpl. auto. }
  induction s as [|a s IH]; simpl; [done|].
  intros [Ha Hs]%andb_prop. rewrite rev_String. apply Happ; [auto|].
  simpl. by rewrite Ha.
Qed.

(** [TrimLeft] removes a prefix made of the character only, and what is
    left does not start with it. *)
Lemma TrimLeft_split s c :
  exists a, s = a +:+ strings.TrimLeft s c /\ only c a = true /\
            forall s', strings.TrimLeft s c <> String c s'.
Proof.
  induction s as [|x s (a & Hs & Ha & Hno)]; simpl.
  - by exists EmptyString.
  - destruct (Ascii.eqb_spec x c) as [->|Hne].
    + exists (String c a). rewrite append_String, <- Hs. simpl.
      by rewrite Ascii.eqb_refl, Ha.
    + exists EmptyString. split; [done|]. split; [done|]. by intros s' [= ? _].
Qed.

Lemma Trim_split s c :
  exists a b, s = a +:+ strings.Trim s c +:+ b /\
    only c a = true /\ only c b = true /\ trimmed c (strings.Trim s c).
Proof.
  unfold strings.Trim.
  destruct (TrimLeft_split s c) as (a & Hs & Ha & Hlead).
  destruct (TrimLeft_split (String.rev (strings.TrimLeft s c)) c)
    as (b & Hr & Hb & Htrail).
  set (t1 := strings.TrimLeft s c) in *.
  set (t2 := strings.TrimLeft (String.rev t1) c) in *.
  assert (Ht1 : t1 = String.rev t2 +:+ String.rev b).
  { by rewrite <- rev_append, <- Hr, rev_involutive. }
  exists a, (String.rev b). split; [by rewrite <- Ht1|].
  split; [done|]. split; [by apply only_rev|]. split.
  - intros s' Heq. rewrite Heq in Ht1. by apply (Hlead (s' +:+ String.rev b)).
  - intros s' Heq. apply (Htrail (String.rev s')).
    by rewrite <- (rev_involutive t2), Heq, rev_append.
Qed.

(** X9: [Mux.init] normalises the root: whatever slashes the given root
    has at its two ends, the root afterwards is one slash followed by the
    given root without them. *)
Theorem Mux_init_normalises_the_root `{Env} (mux : Mux) :
  exists a t b,
    Root mux = a +:+ t +:+ b /\ only "/" a = true /\ only "/" b = true /\
    trimmed "/" t /\
    Root (Mux_init mux) = "/" +:+ t.
Proof.
  destruct (Trim_split (Root mux) "/") as (a & b & Hs & Ha & Hb & Ht).
  exists a, (strings.Trim (Root mux) "/"), b. split_and!; try done.
  unfold Mux_init. simpl.
  destruct (Root mux) as [|c s]; [|done]. reflexivity.
Qed.

(** X10: [Mux.Init] runs [init] once: afterwards the mux is marked as
    initialised and has a default handler unless it was marked before,
    a second call changes nothing, and the error function and the router
    are never changed. *)
Theorem Mux_Init_runs_once `{Env} (mux : Mux) :
  Mux_Init (Mux_Init mux) = Mux_Init mux /\
  mux_initialize (Mux_Init mux) = true /\
  (mux_initialize mux = false -> DefaultHandler (Mux_Init mux) <> None) /\
  ErrorFunc (Mux_Init mux) = ErrorFunc mux /\
  mux_router (Mux_Init mux) = mux_router mux.
Proof.
  unfold Mux_Init. destruct (mux_initialize mux) eqn:Hi; simpl.
  - by rewrite Hi.
  - split_and!; try done. intros _. by destruct (DefaultHandler mux).
Qed.

Lemma substring_all s : String.substring 0 (String.length s) s = s.
Proof. induction s as [|a s IH]; simpl; [done|]. by rewrite IH. Qed.

Lemma HasPrefix_append root sub : strings.HasPrefix (root +:+ sub) root = true.
Proof.
  unfold strings.HasPrefix. induction root as [|a root IH]; [by destruct sub|].
  rewrite append_String. simpl. by destruct (ascii_dec a a).
Qed.

Lemma from_append root sub : strings.from (String.length root) (root +:+ sub) = sub.
Proof.
  unfold strings.from. induction root as [|a root IH].
  - simpl. rewrite Nat.sub_0_r. apply substring_all.
  - rewrite append_String. simpl. apply IH.
Qed.

Lemma HasPrefix_split path root :
  strings.HasPrefix path root = true ->
  path = root +:+ strings.from (String.length root) path.
Proof.
  unfold strings.HasPrefix, strings.from. revert path.
  induction root as [|a root IH]; intros path.
  - intros _. simpl. by rewrite Nat.sub_0_r, substring_all.
  - destruct path as [|b path]; simpl; [done|].
    destruct (ascii_dec a b) as [->|]; [|done].
    intros Hp. rewrite append_String. f_equal. by apply IH.
Qed.

(** X11: [Mux.route] asks the router for the path without the root: a path
    made of the root followed by [sub] resolves to what the router finds for
    [sub], and every route that [Mux.route] returns was found by the router
    for the rest of a path that starts with the root. *)
Theorem Mux_route_strips_the_root `{Env} (mux : Mux) (method : string) :
  (forall sub,
     Mux_route mux method (Root mux +:+ sub) =
       match router_Route (mux_router mux) method sub with
       | Some (route, args) => (Some route, args, None)
       | None => (None, [], Some (fmtError "unknown path: '%s'"
                                    [FString (Root mux +:+ sub)]))
       end) /\
  (forall path route args e,
     Mux_route mux method path = (Some route, args, e) ->
     e = None /\
     exists sub, path = Root mux +:+ sub /\
       router_Route (mux_router mux) method sub = Some (route, args)).
Proof.
  split.
  - intros sub. unfold Mux_route.
    rewrite HasPrefix_append, from_append.
    by destruct (router_Route _ _ _) as [[route args]|].
  - intros path route args e. unfold Mux_route.
    destruct (strings.HasPrefix path (Root mux)) eqn:Hp; [|done].
    destruct (router_Route _ _ _) as [[route' args']|] eqn:Hr; [|done].
    intros [= <- <- <-]. split; [done|].
    exists (strings.from (String.length (Root mux)) path).
    split; [by apply HasPrefix_split|done].
Qed.

(** X12: [ServeHTTP] calls a handler at most once, and only the handler of
    the route that matches, after the content type was found to be JSON and
    the body was read without error, with the arguments that [invoke]
    binds. *)
Theorem handler_is_called_at_most_once `{Env} (mux : Mux) (httpReq : http.Request) :
  (length (served_calls (ServeHTTP mux httpReq)) <= 1)%nat /\
  (forall in_, in_ ∈ served_calls (ServeHTTP mux httpReq) ->
     exists route args body,
       Mux_route (Mux_Init mux) (http.Method httpReq) (http.URL_Path httpReq)
         = (Some route, args, None) /\
       http.Get (http.Header_ httpReq) "Content-Type" = "application/json" /\
       http.Body httpReq = (body, None) /\
       calls (invoke route args body) = [in_]).
Proof.
  destruct (Mux_route_cases (Mux_Init mux) (http.Method httpReq)
              (http.URL_Path httpReq)) as [(route & args & Hr)|[Hno _]].
  - rewrite (ServeHTTP_matched _ _ _ _ Hr). simpl.
    destruct (String.eqb_spec (http.Get (http.Header_ httpReq) "Content-Type")
                "application/json") as [Heq|Hne]; simpl.
    + destruct (http.Body httpReq) as [body [e|]] eqn:Hb; simpl.
      { split; [lia|]. by intros in_ ?%elem_of_nil. }
      assert (Hcalls : served_calls
                (match returned (invoke route args body) with
                 | Some (resp, Some restError) =>
                   mkServed _ (Mux_Init mux) (Some (Type' restError, Sub restError))
                     (calls (invoke route args body))
                     (respondError (Mux_Init mux) (Type' restError)
                        http.StatusBadRequest (Sub restError))
                 | Some (resp, None) =>
                   mkServed _ (Mux_Init mux) None (calls (invoke route args body))
                     (Some (if Nat.eqb (length resp) 0
                            then http.WriteHeader http.StatusNoContent
                            else http.Write
                                   [("Content-Type", "application/json");
                                    ("Content-Length", pretty (Z.of_nat (length resp)))]
                                   resp))
                 | None => mkServed _ (Mux_Init mux) None
                             (calls (invoke route args body)) None
                 end) = calls (invoke route args body)).
      { by destruct (returned _) as [[resp [e|]]|]. }
      rewrite Hcalls.
      assert (Hshape : calls (invoke route args body) = [] \/
                       exists in_, calls (invoke route args body) = [in_]).
      { unfold invoke. destruct (handlerType route); [|by left].
        destruct (handler route); [|by left].
        destruct (invoke_in _ _ _ _ _ _); [by left|].
        destruct (Call_args _ _ _); [right; eauto|by left]. }
      destruct Hshape as [->|[in0 Hin0]].
      * split; [simpl; lia|]. by intros in_ ?%elem_of_nil.
      * rewrite Hin0. split; [simpl; lia|].
        intros in_ ->%list_elem_of_singleton. by exists route, args, body.
    + split; [lia|]. by intros in_ ?%elem_of_nil.
  - rewrite (ServeHTTP_no_match _ _ Hno). simpl.
    split; [lia|]. by intros in_ ?%elem_of_nil.
Qed.

(** X13: for a matched request with the JSON content type whose body was
    read, a call of the handler that reports no error is answered with the
    status 204 and no body when the handler has no body result or returns
    an empty value, and otherwise with the JSON encoding of the result
    followed by a newline, under the content type application/json and a
    content length that is the length of what is written. *)
Theorem success_response `{Env} (mux : Mux) (httpReq : http.Request)
    (route : Route) (args : list string) (body : list byte)
    (in_ : list Value) (h : Dyn) :
  Mux_route (Mux_Init mux) (http.Method httpReq) (http.URL_Path httpReq)
    = (Some route, args, None) ->
  http.Get (http.Header_ httpReq) "Content-Type" = "application/json" ->
  http.Body httpReq = (body, None) ->
  calls (invoke route args body) = [in_] ->
  handler route = Some h ->
  outError route < 0 \/
    Call h in_ !! Z.to_nat (outError route) = Some (VError None) ->
  (outBody route < 0 ->
   written (ServeHTTP mux httpReq) = Some (http.WriteHeader 204)) /\
  (forall v, 0 <= outBody route ->
     Call h in_ !! Z.to_nat (outBody route) = Some v ->
     (empty_value v = true ->
      written (ServeHTTP mux httpReq) = Some (http.WriteHeader 204)) /\
     (empty_value v = false ->
      forall b, json_Marshal v = (b, None) ->
        written (ServeHTTP mux httpReq) =
          Some (http.Write
                  [("Content-Type", "application/json");
                   ("Content-Length", pretty (Z.of_nat (length (b ++ [x0a]))))]
                  (b ++ [x0a])))).
Proof.
  intros Hr Hct Hb Hcalls Hh Herr.
  destruct (invoke_called _ _ _ _ Hcalls) as (ht & h' & _ & Hh' & _ & Hret).
  rewrite Hh in Hh'. injection Hh' as <-.
  rewrite (invoke_out_no_error _ _ Herr) in Hret.
  rewrite (ServeHTTP_matched _ _ _ _ Hr). simpl. rewrite Hct, Hb. simpl.
  rewrite Hret. split.
  - intros Hneg. by assert ((outBody route >=? 0) = false) as -> by lia.
  - intros v Hge Hv. assert ((outBody route >=? 0) = true) as -> by lia.
    rewrite Hv. split.
    + by intros ->.
    + intros -> b Hm. unfold json_Encode. rewrite Hm. simpl.
      by destruct b.
Qed.


Section AddRoute.
Context `{RouterAdd}.

Lemma AddRoute_fold routes : forall mux,
  fold_left
    (fun mux route =>
       mkMux _ (Root mux) (ErrorFunc mux) (DefaultHandler mux) (mux_initialize mux)
         (router_Add (mux_router mux) route))
    routes mux =
  mkMux _ (Root mux) (ErrorFunc mux) (DefaultHandler mux) (mux_initialize mux)
    (fold_left router_Add routes (mux_router mux)).
Proof.
  induction routes as [|route routes IH]; intros mux; simpl.
  - by destruct mux.
  - by rewrite IH.
Qed.

Lemma AddRoute_unfold mux routes :
  Mux_AddRoute mux routes =
  mkMux _ (Root (Mux_Init mux)) (ErrorFunc mux) (DefaultHandler (Mux_Init mux)) true
    (fold_left router_Add routes (mux_router mux)).
Proof.
  unfold Mux_AddRoute. rewrite AddRoute_fold.
  unfold Mux_Init. by destruct (mux_initialize mux) eqn:Hi; simpl; rewrite ?Hi.
Qed.

Lemma AddRoute_AddRoute mux routes1 routes2 :
  Mux_AddRoute (Mux_AddRoute mux routes1) routes2 = Mux_AddRoute mux (routes1 ++ routes2).
Proof.
  rewrite !AddRoute_unfold. simpl. by rewrite fold_left_app.
Qed.

End AddRoute.

(** X15: [Mux.AddRoute] initialises the mux and hands the routes to the
    router in the order given; the root is the normalised one and the error
    function is untouched. Adding routes in two calls is the same as adding
    them in one. *)
Theorem AddRoute_adds_in_order `{RouterAdd} (mux : Mux) (routes1 routes2 : list Route) :
  mux_initialize (Mux_AddRoute mux routes1) = true /\
  Root (Mux_AddRoute mux routes1) = Root (Mux_Init mux) /\
  ErrorFunc (Mux_AddRoute mux routes1) = ErrorFunc mux /\
  mux_router (Mux_AddRoute mux routes1) = fold_left router_Add routes1 (mux_router mux) /\
  Mux_AddRoute (Mux_AddRoute mux routes1) routes2 = Mux_AddRoute mux (routes1 ++ routes2).
Proof.
  split_and!; try (by rewrite AddRoute_unfold).
  apply AddRoute_AddRoute.
Qed.

(** X16: [Mux.AddService] with at least one routable is [Mux.AddRoute] with
    the routes of all the routables, in order; with no routable it leaves
    the mux as it is, not even initialised. *)
Theorem AddService_is_AddRoute `{RouterAdd} (mux : Mux) (routables : list Routable) :
  Mux_AddService mux [] = mux /\
  (routables <> [] ->
   Mux_AddService mux routables =
     Mux_AddRoute mux (concat (RESTRoutes <$> routables))).
Proof.
  split; [done|]. intros Hne.
  destruct routables as [|r0 rs]; [done|]. clear Hne.
  unfold Mux_AddService. simpl.
  generalize (RESTRoutes r0) as routes0. revert mux.
  induction rs as [|r rs IH]; intros mux routes0; simpl.
  - by rewrite app_nil_r.
  - rewrite AddRoute_AddRoute, IH. by rewrite app_assoc.
Qed.

(** ** Further properties of the client *)

Section ClientFacts.
Context `{Env} `{client.Transport}.
Implicit Types (req : client.Request).

Lemma AddHeader_fields req key value :
  let req' := client.AddHeader req key value in
  client.Client_ req' = client.Client_ req /\ client.Host req' = client.Host req /\
  client.Root req' = client.Root req /\ client.Path req' = client.Path req /\
  client.Method req' = client.Method req /\ client.Body req' = client.Body req /\
  client.HTTP req' = client.HTTP req /\ client.err req' = client.err req.
Proof. done. Qed.

Lemma AddHeader_Get req key value :
  client.CanonicalMIMEHeaderKey key = key ->
  http.Get (default ∅ (client.Header (client.AddHeader req key value))) key =
    match default ∅ (client.Header req) !! key with
    | Some (v :: _) => v
    | _ => value
    end.
Proof.
  intros Hcanon. unfold client.AddHeader, client.Header_Add, http.Get. simpl.
  rewrite Hcanon, lookup_insert_eq.
  replace (match client.Header req with Some h => h | None => ∅ end)
    with (default ∅ (client.Header req)) by by destruct (client.Header req).
  by destruct (default ∅ (client.Header req) !! key) as [[|v l]|].
Qed.

Lemma AddHeader_lookup req key value k :
  default ∅ (client.Header (client.AddHeader req key value)) !! k =
    if decide (client.CanonicalMIMEHeaderKey key = k)
    then Some (default [] (default ∅ (client.Header req) !! k) ++ [value])
    else default ∅ (client.Header req) !! k.
Proof.
  unfold client.AddHeader, client.Header_Add. simpl.
  replace (match client.Header req with Some h => h | None => ∅ end)
    with (default ∅ (client.Header req)) by by destruct (client.Header req).
  rewrite lookup_insert. by case_decide; subst.
Qed.

End ClientFacts.

(** X17: [Request.AddHeader] adds and never replaces: the values of a key
    are kept in the order in which they were added, the other keys are
    untouched, and [Get] of a key in canonical form returns the value added
    first, so a later [AddHeader] does not change what [Get] returns. *)
Theorem AddHeader_appends `{client.Transport} (req : client.Request)
    (key value : string) :
  (forall k,
     default ∅ (client.Header (client.AddHeader req key value)) !! k =
       if decide (client.CanonicalMIMEHeaderKey key = k)
       then Some (default [] (default ∅ (client.Header req) !! k) ++ [value])
       else default ∅ (client.Header req) !! k) /\
  (client.CanonicalMIMEHeaderKey key = key ->
   http.Get (default ∅ (client.Header (client.AddHeader req key value))) key =
     match default ∅ (client.Header req) !! key with
     | Some (v :: _) => v
     | _ => value
     end) /\
  (client.CanonicalMIMEHeaderKey key = key ->
   forall value2,
     http.Get (default ∅ (client.Header
                 (client.AddHeader (client.AddHeader req key value) key value2))) key =
     http.Get (default ∅ (client.Header (client.AddHeader req key value))) key).
Proof.
  split_and!.
  - apply AddHeader_lookup.
  - apply AddHeader_Get.
  - intros Hcanon value2. rewrite AddHeader_Get by done.
    rewrite AddHeader_lookup, Hcanon, decide_True by done.
    unfold http.Get. rewrite AddHeader_lookup, Hcanon, decide_True by done.
    by destruct (default ∅ (client.Header req) !! key) as [[|v l]|].
Qed.

Lemma SetBody_result `{Env} `{client.Transport} (req : client.Request)
    (obj : Value) (b : list byte) (e : error) :
  json_Marshal obj = (b, e) ->
  client.Body (client.SetBody req obj) = b /\
  (e = None ->
   client.err (client.SetBody req obj) = client.err req /\
   client.Header (client.SetBody req obj) =
     client.Header
       (client.AddHeader req "Content-Length" (pretty (Z.of_nat (length b))))) /\
  (e <> None ->
   client.err (client.SetBody req obj) = Some (mkError MarshalError e) /\
   client.Header (client.SetBody req obj) = client.Header req).
Proof.
  intros Hm. unfold client.SetBody. rewrite Hm.
  destruct e as [e|]; simpl; split_and!; done.
Qed.

(** X18: [Request.SetBody] adds the decimal length of the encoded body as a
    value of the Content-Length header, so on a request without that header
    [Get] returns the length of the body. A second [SetBody] replaces the
    body but adds its length after the first one: the header then holds
    both lengths and [Get] still returns the length of the first body. A
    [SetBody] whose encoding fails leaves the header as it is and records
    an error of kind [MarshalError]. *)
Theorem SetBody_content_length `{Env} `{client.Transport} (req : client.Request)
    (obj1 obj2 : Value) (b1 b2 : list byte) :
  client.CanonicalMIMEHeaderKey "Content-Length" = "Content-Length" ->
  default ∅ (client.Header req) !! "Content-Length" = None ->
  json_Marshal obj1 = (b1, None) ->
  (client.Body (client.SetBody req obj1) = b1 /\
   http.Get (default ∅ (client.Header (client.SetBody req obj1))) "Content-Length"
     = pretty (Z.of_nat (length b1))) /\
  (json_Marshal obj2 = (b2, None) ->
   client.Body (client.SetBody (client.SetBody req obj1) obj2) = b2 /\
   default ∅ (client.Header (client.SetBody (client.SetBody req obj1) obj2))
     !! "Content-Length"
     = Some [pretty (Z.of_nat (length b1)); pretty (Z.of_nat (length b2))] /\
   http.Get (default ∅ (client.Header (client.SetBody (client.SetBody req obj1) obj2)))
     "Content-Length" = pretty (Z.of_nat (length b1))) /\
  (forall e, json_Marshal obj2 = (b2, Some e) ->
   client.Header (client.SetBody (client.SetBody req obj1) obj2)
     = client.Header (client.SetBody req obj1) /\
   client.err (client.SetBody (client.SetBody req obj1) obj2)
     = Some (mkError MarshalError (Some e))).
Proof.
  intros Hcanon Hnone Hm1.
  destruct (SetBody_result req obj1 b1 None Hm1) as (Hb1 & Hok1 & _).
  destruct (Hok1 eq_refl) as [_ Hh1].
  assert (Hl1 : default ∅ (client.Header (client.SetBody req obj1)) !! "Content-Length"
                = Some [pretty (Z.of_nat (length b1))]).
  { by rewrite Hh1, AddHeader_lookup, Hcanon, decide_True, Hnone. }
  split_and!.
  - done.
  - unfold http.Get. by rewrite Hl1.
  - intros Hm2.
    destruct (SetBody_result (client.SetBody req obj1) obj2 b2 None Hm2)
      as (Hb2 & Hok2 & _).
    destruct (Hok2 eq_refl) as [_ Hh2].
    assert (Hl2 : default ∅ (client.Header
                    (client.SetBody (client.SetBody req obj1) obj2))
                  !! "Content-Length"
                  = Some [pretty (Z.of_nat (length b1)); pretty (Z.of_nat (length b2))]).
    { by rewrite Hh2, AddHeader_lookup, Hcanon, decide_True, Hl1. }
    split; [done|]. split; [done|]. unfold http.Get. by rewrite Hl2.
  - intros e Hm2.
    destruct (SetBody_result (client.SetBody req obj1) obj2 b2 (Some e) Hm2)
      as (_ & _ & Hfail).
    destruct Hfail as [He Hh]; done.
Qed.

(** X19: a pending error is never cleared and stops [Send]: once [SetBody]
    has failed, a later [SetBody] that succeeds and later [AddHeader] and
    [SetClient] calls keep the error, and [Send] builds no HTTP request,
    does not use the transport, and returns a response that carries the
    error, which is what [GetBody] then returns. *)
Theorem pending_error_stops_Send `{Env} `{client.Transport}
    (req : client.Request) (e : Error) :
  client.err req = Some e ->
  (forall obj b, json_Marshal obj = (b, None) ->
     client.err (client.SetBody req obj) = Some e) /\
  (forall key value, client.err (client.AddHeader req key value) = Some e) /\
  (forall c, client.err (client.SetClient req c) = Some e) /\
  (exists req', client.Send req = Some (req', mkResponse 0 ∅ [] (Some e)) /\
     client.HTTP req' = client.HTTP req /\
     client.Header req' = client.Header req) /\
  (forall obj, GetBody (mkResponse 0 ∅ [] (Some e)) obj = Some e).
Proof.
  intros He. split_and!.
  - intros obj b Hm. unfold client.SetBody. by rewrite Hm.
  - done.
  - done.
  - unfold client.Send.
    destruct (Nat.eqb _ 0); simpl; rewrite He; eexists; done.
  - done.
Qed.


Section SendFacts.
Context `{Env} `{client.Transport}.
Implicit Types (req : client.Request).

(** [Send] on a request without pending error, by the outcome of the
    transport. *)
Lemma Send_cases req :
  client.err req = None ->
  client.Send req =
    match client.http_NewRequest (client.Method req) (sent_url req) (sent_body req) with
    | Some e =>
      Some (client.mkRequest (client.Client_ req) (client.Host req) (client.Root req)
              (if Nat.eqb (String.length (client.Path req)) 0
               then client.Root req else client.Path req)
              (client.Method req) (client.Header req) (client.Body req) None None,
            mkResponse 0 ∅ [] (Some (mkError NewRequestError (Some e))))
    | None =>
      let header := client.Header_Add (default ∅ (client.Header req))
                      "Content-Type" "application/json" in
      let hreq := client.mkHTTPRequest (client.Method req) (sent_url req)
                    (sent_body req) header in
      let req' := client.mkRequest (client.Client_ req) (client.Host req)
                    (client.Root req)
                    (if Nat.eqb (String.length (client.Path req)) 0
                     then client.Root req else client.Path req)
                    (client.Method req) (Some header) (client.Body req)
                    (Some hreq) None in
      match client.Client_ req with
      | None => None
      | Some c =>
        match client.client_Do c hreq with
        | inl e => Some (req', mkResponse 0 ∅ [] (Some (mkError SendRequestError (Some e))))
        | inr (code, header, (body, None)) =>
          Some (req', mkResponse code header body None)
        | inr (code, header, (body, Some e)) =>
          Some (req', mkResponse code header body
                        (Some (mkError ReadBodyError (Some e))))
        end
      end
    end.
Proof.
  intros Herr. unfold client.Send, client.send, sent_url, sent_body.
  destruct req as [c host root path method header body http err]. simpl in *.
  subst err. destruct (Nat.eqb (String.length path) 0); simpl.
  all: destruct (client.http_NewRequest _ _ _); [done|].
  all: unfold client.AddHeader; simpl.
  all: replace (match header with Some h => h | None => ∅ end)
         with (default ∅ header) by by destruct header.
  all: done.
Qed.

Lemma Send_header req req' resp hreq :
  client.err req = None ->
  client.Send req = Some (req', resp) ->
  client.HTTP req' = Some hreq ->
  client.http_header hreq =
    client.Header_Add (default ∅ (client.Header req))
      "Content-Type" "application/json".
Proof.
  intros Herr. rewrite (Send_cases req Herr).
  destruct (client.http_NewRequest _ _ _) as [e|]; simpl.
  { by intros [= <- <-]. }
  destruct (client.Client_ req) as [c|]; [|done].
  destruct (client.client_Do c _) as [e|[[code header] [body [e|]]]];
    intros [= <- <-]; simpl; by intros [= <-].
Qed.

End SendFacts.

(** X20: [Send] on a request without pending error returns a response
    without error exactly when the transport returned a response whose body
    was read to the end, in both directions: when the HTTP request is built
    and the transport answers it with a status code, a header and a body
    read without error, [Send] returns exactly these and no error; and a
    response that [Send] returns has no error if and only if the transport
    answered the request built in this way, and then it carries the status
    code, the header and the body of the transport. Otherwise the error is
    of kind [NewRequestError], [SendRequestError] or [ReadBodyError]. *)
Theorem Send_response `{Env} `{client.Transport} (req : client.Request) :
  client.err req = None ->
  (forall c code header body,
     client.http_NewRequest (client.Method req) (sent_url req) (sent_body req)
       = None ->
     client.Client_ req = Some c ->
     client.client_Do c
       (client.mkHTTPRequest (client.Method req) (sent_url req) (sent_body req)
          (client.Header_Add (default ∅ (client.Header req))
             "Content-Type" "application/json"))
       = inr (code, header, (body, None)) ->
     exists req',
       client.Send req = Some (req', mkResponse code header body None)) /\
  (forall req' resp,
     client.Send req = Some (req', resp) ->
     (Error' resp = None <->
      exists c hreq code header body,
        client.Client_ req = Some c /\ client.HTTP req' = Some hreq /\
        client.client_Do c hreq = inr (code, header, (body, None))) /\
     match Error' resp with
     | None =>
       exists c hreq,
         client.Client_ req = Some c /\ client.HTTP req' = Some hreq /\
         client.client_Do c hreq = inr (Code resp, Header resp, (Body resp, None))
     | Some e =>
       Type' e ∈ [NewRequestError; SendRequestError; ReadBodyError]
     end).
Proof.
  intros Herr. pose proof (Send_cases req Herr) as Hs. split.
  - intros c code header body Hnew Hc Hdo.
    rewrite Hs, Hnew. simpl. rewrite Hc, Hdo. eauto.
  - intros req' resp. rewrite Hs.
    destruct (client.http_NewRequest _ _ _) as [e|]; simpl.
    { intros [= <- <-]. simpl. split; [|repeat constructor].
      split; [done|]. by intros (c & hreq & code & header & body & _ & Hh & _). }
    destruct (client.Client_ req) as [c|]; [|done].
    destruct (client.client_Do c _) as [e|[[code header] [body [e|]]]] eqn:Hdo;
      intros [= <- <-]; simpl.
    + split; [|repeat constructor]. split; [done|].
      intros (c' & hreq & code' & header' & body' & [= <-] & [= <-] & Hdo').
      rewrite Hdo in Hdo'. discriminate Hdo'.
    + split; [|repeat constructor]. split; [done|].
      intros (c' & hreq & code' & header' & body' & [= <-] & [= <-] & Hdo').
      rewrite Hdo in Hdo'. discriminate Hdo'.
    + split; [|eauto]. split; [|done]. intros _.
      eexists c, _, code, header, body. split; [done|]. split; [done|]. exact Hdo.
Qed.

(** X21: the HTTP request that [Send] builds has the method of the request,
    the URL made of the host without its trailing slashes and of the path
    (the root when the path is empty), a body only when the body of the
    request is not empty, and the header of the request with
    application/json added as a value of Content-Type. When
    [http.NewRequest] refuses the method or the URL, nothing is built, the
    header is left as it is and the error is of kind [NewRequestError]. *)
Theorem request_as_sent `{Env} `{client.Transport} (req req' : client.Request)
    (resp : Response) :
  client.err req = None ->
  client.Send req = Some (req', resp) ->
  match client.http_NewRequest (client.Method req) (sent_url req) (sent_body req) with
  | Some e =>
    client.HTTP req' = None /\ client.Header req' = client.Header req /\
    resp = mkResponse 0 ∅ [] (Some (mkError NewRequestError (Some e)))
  | None =>
    exists hreq, client.HTTP req' = Some hreq /\
      client.http_method hreq = client.Method req /\
      client.http_url hreq = sent_url req /\
      client.http_body hreq = sent_body req /\
      client.Header req' = Some (client.http_header hreq) /\
      client.http_header hreq =
        client.Header_Add (default ∅ (client.Header req))
          "Content-Type" "application/json"
  end.
Proof.
  intros Herr. rewrite (Send_cases req Herr).
  destruct (client.http_NewRequest _ _ _) as [e|]; simpl.
  { by intros [= <- <-]. }
  destruct (client.Client_ req) as [c|]; [|done].
  destruct (client.client_Do c _) as [e|[[code header] [body [e|]]]];
    intros [= <- <-]; simpl; eexists; split_and!; done.
Qed.

(** X22: the client and the mux agree on the content type: when the
    request had no Content-Type value before [Send], the header of the HTTP
    request that [Send] builds passes the content type check of
    [Mux.ServeHTTP], which therefore never answers it with
    [UnsupportedContentType]. *)
Theorem sent_request_passes_the_content_type_check `{Env} `{client.Transport}
    (req req' : client.Request) (resp : Response) (hreq : client.HTTPRequest)
    (mux : Mux) (httpReq : http.Request) :
  client.CanonicalMIMEHeaderKey "Content-Type" = "Content-Type" ->
  default ∅ (client.Header req) !! "Content-Type" = None ->
  client.err req = None ->
  client.Send req = Some (req', resp) ->
  client.HTTP req' = Some hreq ->
  http.Header_ httpReq = client.http_header hreq ->
  http.Get (http.Header_ httpReq) "Content-Type" = "application/json" /\
  forall cause,
    raised (ServeHTTP mux httpReq) <> Some (UnsupportedContentType, cause).
Proof.
  intros Hcanon Hnone Herr Hsend Hhttp Hheader.
  assert (Hget : http.Get (http.Header_ httpReq) "Content-Type" = "application/json").
  { rewrite Hheader, (Send_header _ _ _ _ Herr Hsend Hhttp).
    unfold http.Get, client.Header_Add.
    by rewrite Hcanon, lookup_insert_eq, Hnone. }
  split; [done|]. intros cause Hraised.
  destruct (ServeHTTP_raised_kinds _ _ _ _ Hraised) as [[_ Hne]|[Hne _]]; done.
Qed.

(** X23: for a response without transport error, [GetBody] returns nil
    exactly when the status code is below 400 and either the status is 204
    and the caller passed no object, or the status is not 204 and the
    content type is application/json; the status codes below 200 and from
    300 to 399 are accepted like the 2xx ones, and a body that does not
    decode does not count. *)
Theorem GetBody_succeeds_iff `{Env} (resp : Response) (obj : option Value) :
  Error' resp = None ->
  (GetBody resp obj = None <->
   Code resp < 400 /\
   (Code resp = 204 /\ obj = None \/
    Code resp <> 204 /\
    http.Get (Header resp) "Content-Type" = "application/json")).
Proof.
  intros Herr. unfold GetBody, GetBody_arm. rewrite Herr.
  unfold http.StatusNotFound, http.StatusNoContent.
  destruct (Code resp =? 404) eqn:H404; simpl;
    [zbool; split; [done|intros [? _]; exfalso; lia]|].
  destruct (Code resp >=? 400) eqn:H400; simpl;
    [zbool; split; [done|intros [? _]; exfalso; lia]|].
  assert ((Code resp <? 200) && (Code resp >=? 300) = false) as ->.
  { destruct (Code resp <? 200) eqn:H1; [|done].
    destruct (Code resp >=? 300) eqn:H2; [|done]. zbool. lia. }
  destruct (Code resp =? 204) eqn:H204; simpl.
  - zbool. destruct obj as [o|]; simpl; split; try done.
    + intros [_ [[_ ?]|[? _]]]; done.
    + intros _. split; [lia|by left].
  - zbool.
    destruct (String.eqb_spec (http.Get (Header resp) "Content-Type")
                "application/json") as [Heq|Hne]; simpl.
    + split; [intros _; split; [lia|by right]|done].
    + split; [done|]. intros [_ [[? _]|[_ ?]]]; done.
Qed.

(** X24: a transport error recorded in the response is what [GetBody]
    returns, whatever the status; without one, every status from 400 on is
    an error whose cause is the body of the response as a text, of kind
    [UnknownRoute] for 404 and [EndpointError] for the others, whatever the
    content type and the object. *)
Theorem GetBody_failure_statuses `{Env} (resp : Response) (obj : option Value) :
  (forall e, Error' resp = Some e -> GetBody resp obj = Some e) /\
  (Error' resp = None -> 400 <= Code resp ->
   GetBody resp obj =
     Some (mkError (if Code resp =? 404 then UnknownRoute else EndpointError)
             (Some (errorString (String.string_of_list_byte (Body resp)))))).
Proof.
  unfold GetBody, GetBody_arm. split.
  - by intros e ->.
  - intros -> Hge. unfold http.StatusNotFound.
    destruct (Code resp =? 404); [done|].
    by assert ((Code resp >=? 400) = true) as -> by lia.
Qed.

(** X25: [Send] panics exactly when the request has no pending error, the
    HTTP request can be built and the client of the request is nil. The
    requests made by [NewRequest] and by [Client.NewRequest] have a client,
    and [AddHeader] and [SetBody] keep it, so only [SetClient] with a nil
    client leads there. *)
Theorem Send_panics_iff `{Env} `{client.Transport} (req : client.Request) :
  (client.Send req = None <->
   client.err req = None /\
   client.http_NewRequest (client.Method req) (sent_url req) (sent_body req) = None /\
   client.Client_ req = None) /\
  (forall host method, client.Client_ (client.NewRequest host method) <> None) /\
  (forall c method, client.Client_ (snd (client.Client_NewRequest c method)) <> None) /\
  (forall key value,
     client.Client_ (client.AddHeader req key value) = client.Client_ req) /\
  (forall obj, client.Client_ (client.SetBody req obj) = client.Client_ req).
Proof.
  split_and!.
  - destruct (client.err req) as [e|] eqn:Herr.
    + split; [|by intros [? _]]. unfold client.Send.
      destruct (Nat.eqb _ 0); simpl; by rewrite Herr.
    + rewrite (Send_cases req Herr).
      destruct (client.http_NewRequest _ _ _) as [e|]; simpl.
      { split; [done|]. by intros (_ & ? & _). }
      destruct (client.Client_ req) as [c|]; simpl.
      * split; [|by intros (_ & _ & ?)].
        by destruct (client.client_Do c _) as [e|[[code header] [body [e|]]]].
      * done.
  - done.
  - intros [[x|] host root] method; done.
  - done.
  - intros obj. unfold client.SetBody.
    by destruct (json_Marshal obj) as [b [e|]].
Qed.


(** ** The further properties at concrete inputs *)

#[local] Existing Instance Example.env.
#[local] Existing Instance Sample.adder.
#[local] Existing Instance Sample.transport.

Lemma init_result_slots_witness :
  outError (Example.initialised Example.fail) = 1 /\
  outBody (Example.initialised Example.fail) = 0 /\
  exists t, 0 <= 1 /\
    reflect.Outs (dynType Example.fail_handler) !! Z.to_nat 1 = Some t /\
    is_errorType t = true.
Proof.
  split; [reflexivity|]. split; [reflexivity|].
  destruct (proj1 (init_result_slots
                     (mkRoute [Literal "fail"] "GET" (Some Example.fail_handler)
                        true None None 0 0 0)
                     (Example.initialised Example.fail) Example.fail_handler
                     eq_refl eq_refl)) as [[Hnone _]|Hslot].
  - discriminate Hnone.
  - exact Hslot.
Defined.

Lemma Init_runs_once_witness :
  initialize Example.square = false /\
  Init (Example.initialised Example.square) = inr (Example.initialised Example.square).
Proof.
  split; [reflexivity|].
  apply (proj1 (proj2 (Init_runs_once Example.square
                         (Example.initialised Example.square) eq_refl eq_refl))).
Defined.

Lemma parseArg_keeps_the_cell_witness :
  parseArg (H := Example.env) (Example.initialised Example.square) "1x" (VInt W8 5)
    = (Some (NumError "ParseInt" "1x" ErrSyntax), VInt W8 5) /\
  VInt W8 5 = VInt W8 5.
Proof.
  split; [reflexivity|].
  apply (proj1 (parseArg_keeps_the_cell (H := Example.env)
                  (Example.initialised Example.square) "1x" (VInt W8 5) (VInt W8 5)
                  (Some (NumError "ParseInt" "1x" ErrSyntax)) eq_refl)).
  discriminate.
Defined.

Lemma handler_arguments_fit_witness :
  calls (invoke (H := Example.env) (Example.initialised Sample.note) ["7"]
           (Example.bytes "null")) = [[VInt W0 7; VPtr None]] /\
  length [VInt W0 7; VPtr None] = length (reflect.Ins (dynType Sample.note_handler)).
Proof.
  split; [reflexivity|].
  apply (proj1 (handler_arguments_fit (H := Example.env)
                  (Example.initialised Sample.note) ["7"] (Example.bytes "null")
                  [VInt W0 7; VPtr None] (dynType Sample.note_handler)
                  eq_refl eq_refl)).
Defined.

Lemma body_arguments_are_decoded_witness :
  calls (invoke (H := Example.env) (Example.initialised Sample.note) ["7"]
           (Example.bytes "null")) = [[VInt W0 7; VPtr None]] /\
  invoke (H := Example.env) (Example.initialised Sample.note) ["7"]
    (Example.bytes "{") =
    mkInvocation []
      (Some ([], Some (mkError UnmarshalError
                         (Some (foreignError "json: cannot unmarshal"))))).
Proof.
  pose proof (body_arguments_are_decoded (H := Example.env)
                (Example.initialised Sample.note) ["7"] (Example.bytes "null")
                (dynType Sample.note_handler) Sample.note_handler
                eq_refl eq_refl) as Hgood.
  pose proof (body_arguments_are_decoded (H := Example.env)
                (Example.initialised Sample.note) ["7"] (Example.bytes "{")
                (dynType Sample.note_handler) Sample.note_handler
                eq_refl eq_refl) as Hbad.
  split.
  - destruct Hgood as [Hcall _].
    destruct (Hcall [VInt W0 7; VPtr None] eq_refl) as [_ Hfunc].
    + intros [|[|i]] t Ht; [| |discriminate]; injection Ht as <-.
      * exists (VInt W0 7). by vm_compute.
      * exists (VPtr None). by vm_compute.
    + by rewrite (Hfunc _ _ _ _ eq_refl eq_refl).
  - destruct Hbad as (_ & _ & Hfail).
    apply (Hfail 1%nat Sample.Note _ (VPtr None) eq_refl).
    + simpl. lia.
    + reflexivity.
    + intros j tj Hj Htj. assert (j = 0%nat) as -> by lia.
      injection Htj as <-. exists (VInt W0 7). reflexivity.
Defined.

Lemma invoke_error_has_no_body_witness :
  returned (invoke (H := Example.env) (Example.initialised Example.fail) [] []) =
    Some ([], Some (mkError HandlerError (Some (errorString "boom")))) /\
  (@nil byte = [] /\
   (HandlerError = UnmarshalError \/ HandlerError = HandlerError \/
    HandlerError = MarshalError)).
Proof.
  split; [reflexivity|].
  apply (invoke_error_has_no_body (H := Example.env)
           (Example.initialised Example.fail) [] [] []
           (mkError HandlerError (Some (errorString "boom"))) eq_refl).
Defined.

Lemma invoke_panics_iff_witness :
  returned (invoke (H := Example.env) (Example.initialised Example.fail) [] [])
    <> None.
Proof.
  refine (proj1 (proj2 (invoke_panics_iff (H := Example.env)
           (mkRoute [Literal "fail"] "GET" (Some Example.fail_handler)
              true None None 0 0 0)
           (Example.initialised Example.fail) Example.fail_handler [] []
           eq_refl eq_refl _)) _ _ _ eq_refl).
  intros in_. unfold conforms. simpl.
  constructor; [intros Hf; discriminate Hf|].
  constructor; [intros _; eexists; reflexivity|].
  constructor.
Defined.

Lemma parsed_integers_fit_the_cell_witness :
  parseArg (H := Example.env) (Example.initialised Example.square) "-128" (VInt W8 0)
    = (None, VInt W8 (-128)) /\
  exists i, VInt W8 (-128) = VInt W8 i /\ int_range (Bits (int_kind W8)) i.
Proof.
  split; [reflexivity|].
  apply (proj1 (parsed_integers_fit_the_cell (H := Example.env)
                  (Example.initialised Example.square) "-128" W8 0
                  (VInt W8 (-128)))).
  reflexivity.
Defined.

Lemma Mux_route_strips_the_root_witness :
  exists sub, "/hello/bob" = Root (Mux_Init Example.mux) +:+ sub /\
    router_Route (mux_router (Mux_Init Example.mux)) "GET" sub =
      Some (Example.initialised Example.hello, ["bob"]).
Proof.
  apply (proj2 (proj2 (Mux_route_strips_the_root (Mux_Init Example.mux) "GET")
                  "/hello/bob" (Example.initialised Example.hello) ["bob"] None
                  eq_refl)).
Defined.

Lemma success_response_witness :
  calls (invoke (H := Example.env) (Example.initialised Example.hello) ["bob"] [])
    = [[VString "bob"]] /\
  written (ServeHTTP Example.mux Sample.hello_request) =
    Some (http.Write
            [("Content-Type", "application/json"); ("Content-Length", "12")]
            (Example.bytes (Example.quote +:+ "hello bob" +:+ Example.quote) ++ [x0a])).
Proof.
  split; [reflexivity|].
  destruct (success_response Example.mux Sample.hello_request
              (Example.initialised Example.hello) ["bob"] [] [VString "bob"]
              Example.hello_handler eq_refl eq_refl eq_refl eq_refl eq_refl
              (or_introl eq_refl)) as [_ Hbody].
  destruct (Hbody (VString "hello bob")) as [_ Henc].
  - vm_compute; discriminate.
  - reflexivity.
  - apply (Henc eq_refl (Example.bytes (Example.quote +:+ "hello bob" +:+ Example.quote))).
    reflexivity.
Defined.

Lemma AddService_is_AddRoute_witness :
  Sample.services <> [] /\
  @Mux_AddService Example.env Sample.adder Example.mux Sample.services =
    @Mux_AddRoute Example.env Sample.adder Example.mux
      [Example.initialised Example.fail; Example.initialised Example.gone].
Proof.
  split; [discriminate|].
  apply (proj2 (@AddService_is_AddRoute Example.env Sample.adder Example.mux
                  Sample.services)).
  discriminate.
Defined.

Lemma AddHeader_appends_witness :
  http.Get (default ∅ (client.Header
     (client.AddHeader (client.AddHeader Sample.notes_request "Accept" "text/plain")
        "Accept" "application/json"))) "Accept" = "text/plain".
Proof.
  rewrite (proj2 (proj2 (AddHeader_appends (H := Sample.transport)
                           Sample.notes_request "Accept" "text/plain")));
    reflexivity.
Defined.

Lemma SetBody_content_length_witness :
  json_Marshal (VInt W0 42) = (Example.bytes "42", None) /\
  json_Marshal (VInt W0 1234) = (Example.bytes "1234", None) /\
  client.Body (client.SetBody (client.SetBody Sample.notes_request (VInt W0 42))
                 (VInt W0 1234)) = Example.bytes "1234" /\
  http.Get (default ∅ (client.Header
     (client.SetBody (client.SetBody Sample.notes_request (VInt W0 42))
        (VInt W0 1234)))) "Content-Length" = "2".
Proof.
  split; [reflexivity|]. split; [reflexivity|].
  destruct (proj1 (proj2 (@SetBody_content_length Example.env Sample.transport
                            Sample.notes_request (VInt W0 42) (VInt W0 1234)
                            (Example.bytes "42") (Example.bytes "1234")
                            eq_refl eq_refl eq_refl)) eq_refl)
    as (Hbody & _ & Hget).
  split; [exact Hbody|exact Hget].
Defined.

Lemma pending_error_stops_Send_witness :
  client.err (client.SetBody (H := Example.env) Sample.notes_request Sample.unencodable)
    = Some (mkError MarshalError (Some (foreignError "json: unsupported type"))) /\
  GetBody (H := Example.env)
    (mkResponse 0 ∅ []
       (Some (mkError MarshalError (Some (foreignError "json: unsupported type")))))
    Example.obj
    = Some (mkError MarshalError (Some (foreignError "json: unsupported type"))).
Proof.
  split; [reflexivity|].
  apply (proj2 (proj2 (proj2 (proj2
           (pending_error_stops_Send (H := Example.env)
              (client.SetBody (H := Example.env) Sample.notes_request Sample.unencodable)
              (mkError MarshalError (Some (foreignError "json: unsupported type")))
              eq_refl))))).
Defined.

Lemma Send_response_witness :
  client.Send Sample.notes_request = Some (Sample.notes_sent, Sample.notes_response) /\
  Error' Sample.notes_response = None /\
  exists c hreq,
    client.Client_ Sample.notes_request = Some c /\
    client.HTTP Sample.notes_sent = Some hreq /\
    client.client_Do c hreq =
      inr (200, Example.json_header, (Example.bytes "null", None)).
Proof.
  split; [reflexivity|]. split; [reflexivity|].
  exact (proj2 (proj2 (@Send_response Example.env Sample.transport
                         Sample.notes_request eq_refl)
                  Sample.notes_sent Sample.notes_response eq_refl)).
Defined.

Lemma request_as_sent_witness :
  client.Send Sample.notes_request = Some (Sample.notes_sent, Sample.notes_response) /\
  exists hreq, client.HTTP Sample.notes_sent = Some hreq /\
    client.http_method hreq = "GET" /\
    client.http_url hreq = "http://host/notes" /\
    client.http_body hreq = None /\
    client.Header Sample.notes_sent = Some (client.http_header hreq) /\
    client.http_header hreq =
      client.Header_Add ∅ "Content-Type" "application/json".
Proof.
  split; [reflexivity|].
  exact (request_as_sent Sample.notes_request Sample.notes_sent Sample.notes_response
           eq_refl eq_refl).
Defined.

Lemma sent_request_passes_the_content_type_check_witness :
  http.Header_ Sample.notes_received = client.http_header Sample.notes_http /\
  http.Get (http.Header_ Sample.notes_received) "Content-Type" = "application/json".
Proof.
  split; [reflexivity|].
  refine (proj1 (@sent_request_passes_the_content_type_check
                   Example.env Sample.transport
                   Sample.notes_request Sample.notes_sent Sample.notes_response
                   Sample.notes_http Example.mux Sample.notes_received
                   _ _ _ _ _ _)); reflexivity.
Defined.

Lemma Send_panics_iff_witness :
  client.Send (client.SetClient Sample.notes_request None) = None.
Proof.
  apply (proj1 (Send_panics_iff (client.SetClient Sample.notes_request None))).
  split; [reflexivity|]. split; reflexivity.
Defined.

Lemma GetBody_succeeds_iff_witness :
  Error' Example.empty_response = None /\
  GetBody (H := Example.env) Example.empty_response None = None.
Proof.
  split; [reflexivity|].
  apply (proj2 (GetBody_succeeds_iff (H := Example.env) Example.empty_response None
                  eq_refl)).
  split; [reflexivity|]. left. split; reflexivity.
Defined.

Lemma GetBody_failure_statuses_witness :
  GetBody (H := Example.env)
    (mkResponse 500 Example.json_header (Example.bytes "boom") None) Example.obj =
    Some (mkError EndpointError (Some (errorString "boom"))).
Proof.
  apply (proj2 (GetBody_failure_statuses (H := Example.env)
                  (mkResponse 500 Example.json_header (Example.bytes "boom") None)
                  Example.obj) eq_refl).
  discriminate.
Defined.
